(** * insight-stream: prompt composition, transcript cache, API client and
      dashboard helpers, embedded in Rocq.

    The development follows the repository:
    - [TimeUtils]   frontend/src/utils/timeUtils.ts
    - [Prompts]     backend/app/core/prompts.py, as excerpted in the prompt
                    restructuring and verification reports
    - [Cache]       backend/app/core/cache.py (described, not listed, in the
                    transcript-cache report)
    - [Endpoints]   backend/app/api/endpoints.py, the excerpts of the reports
    - [Api]         frontend/src/services/api.ts and the transcript panel
    - [ChatPanel]   frontend/src/components/dashboard/ChatPanel.tsx

    Strings are Rocq strings, i.e. byte strings; source text that is not
    ASCII is held as its UTF-8 bytes.  UTF-8 is self-synchronising, so one
    valid text occurs inside another as code points exactly when it does as
    bytes. *)

From Stdlib Require Import String Ascii List ZArith NArith Lia Bool.
From stdpp Require Import base option gmap strings list.


(** ** Characters and text shared by the modules *)

Definition nl : string := String (ascii_of_nat 10) "".
Definition dq : string := String (ascii_of_nat 34) "".

(** Lines joined by a line feed, the way the triple-quoted literals of the
    source are laid out. *)
Definition unlines (ls : list string) : string := String.concat nl ls.

(** [needle in haystack] of Python, [haystack.includes(needle)] of JS. *)
Fixpoint contains (needle haystack : string) : bool :=
  String.prefix needle haystack ||
  match haystack with
  | "" => false
  | String _ rest => contains needle rest
  end.

(** Does the character occur in the text? *)
Fixpoint has_char (c : ascii) (s : string) : bool :=
  match s with
  | "" => false
  | String a rest => Ascii.eqb a c || has_char c rest
  end.

Fixpoint repeat_char (n : nat) (c : ascii) : string :=
  match n with
  | O => ""
  | S k => String c (repeat_char k c)
  end.

(** Exceptions of the Python side and thrown [Error]s of the JS side are
    the left summand; [inr] is a normal return. *)
Definition result (E A : Type) : Type := (E + A)%type.
Definition ok {E A : Type} (a : A) : result E A := inr a.
Definition raise {E A : Type} (e : E) : result E A := inl e.

Definition bind {E A B : Type} (m : result E A) (k : A -> result E B) : result E B :=
  match m with
  | inl e => inl e
  | inr a => k a
  end.

Notation "'do' x <- m ; k" := (bind m (fun x => k))
  (at level 10, x name, m at level 100, k at level 200).

(** ** frontend/src/utils/timeUtils.ts *)

Module TimeUtils.

(** JS numbers are doubles.  The functions below are used on second
    counts; a number is modelled by the natural number it denotes.  On the
    safe integers [0 .. 2^53 - 1] the operations used here ([/] followed by
    [Math.floor], [%], [*], [+], [parseInt] of a digit string) are exact, so
    there the model is the code. *)
Definition MAX_SAFE_INTEGER : N := 9007199254740991.

(** [\d] of a JS regular expression: an ASCII digit. *)
Definition is_digit (c : ascii) : bool :=
  (48 <=? N_of_ascii c)%N && (N_of_ascii c <=? 57)%N.

(** The text is made of digits only. *)
Fixpoint all_digits (s : string) : bool :=
  match s with
  | "" => true
  | String c rest => is_digit c && all_digits rest
  end.

Definition digit_value (c : ascii) : N := (N_of_ascii c - 48)%N.
Definition digit_char (d : N) : ascii := ascii_of_N (48 + d).

(** Decimal digits of [n], most significant first; [fuel] bounds the
    number of digits. *)
Fixpoint decimal_fuel (fuel : nat) (n : N) : string :=
  match fuel with
  | O => String (digit_char (n mod 10)) ""
  | S f =>
      if (n <? 10)%N then String (digit_char n) ""
      else decimal_fuel f (n / 10) +:+ String (digit_char (n mod 10)) ""
  end.

Definition decimal (n : N) : string := decimal_fuel (N.to_nat (N.size n)) n.

Fixpoint drop_leading_zeros (s : string) : string :=
  match s with
  | String "0" rest => drop_leading_zeros rest
  | _ => s
  end.

Definition drop_trailing_zeros (s : string) : string :=
  String.rev (drop_leading_zeros (String.rev s)).

(** The exponential notation of Number::toString, [d.ddde+x]. *)
Definition exponential (n : N) : string :=
  let ds := decimal n in
  match drop_trailing_zeros ds with
  | "" => ds
  | String d "" =>
      String d "" +:+ "e+" +:+ decimal (N.of_nat (String.length ds - 1))
  | String d frac =>
      String d "" +:+ "." +:+ frac +:+ "e+"
        +:+ decimal (N.of_nat (String.length ds - 1))
  end.

(** [`${n}`] and [n.toString()] for a non-negative integer [n]
    (ECMAScript Number::toString, radix 10): plain decimal digits below
    [10^21], exponential notation from [10^21] on.  From [10^21] on JS
    prints the shortest digit string that identifies the double; for an
    [n] with at most 15 significant digits, such as [10^21] itself, that is
    the digit string of [n], which is what the model prints throughout. *)
Definition Number_toString (n : N) : string :=
  if (n <? 10 ^ 21)%N then decimal n else exponential n.

(** [s.padStart(targetLength, fill)] for a one-character [fill]. *)
Definition padStart (targetLength : nat) (fill : ascii) (s : string) : string :=
  repeat_char (targetLength - String.length s) fill +:+ s.

(** [parseInt(s, 10)] on a text that starts with a digit: the value of the
    leading run of digits, which is what JS returns as long as that value
    is a safe integer (beyond, JS rounds to a double).  (The source calls
    it on the groups of the regular expression only, which are non-empty
    runs of digits.) *)
Fixpoint parseInt_from (acc : N) (s : string) : N :=
  match s with
  | "" => acc
  | String c rest =>
      if is_digit c then parseInt_from (acc * 10 + digit_value c) rest
      else acc
  end.

Definition parseInt10 (s : string) : N := parseInt_from 0 s.

(** Longest prefix of digits and what follows it. *)
Fixpoint span_digits (s : string) : string * string :=
  match s with
  | "" => ("", "")
  | String c rest =>
      if is_digit c then
        let '(ds, tl) := span_digits rest in (String c ds, tl)
      else ("", s)
  end.

(** [timestamp.match(/^(\d+):(\d{2})$/)]: the two groups, or [None] for
    [null].  The character after group 1 must be [:], not a digit, so the
    greedy [\d+] can only stand for the whole leading run of digits. *)
Definition match_timestamp (timestamp : string) : option (string * string) :=
  match span_digits timestamp with
  | (String m ms, String ":" (String a (String b ""))) =>
      if is_digit a && is_digit b
      then Some (String m ms, String a (String b ""))
      else None
  | _ => None
  end.

(** The result is the code's whenever it is a safe integer: then so are
    the minutes and their product with 60, and every step is exact. *)
Definition timestampToSeconds (timestamp : string) : N :=
  match match_timestamp timestamp with
  | None => 0  (* console.warn, return 0 *)
  | Some (g1, g2) =>
      let minutes := parseInt10 g1 in
      let seconds := parseInt10 g2 in
      minutes * 60 + seconds
  end.

Definition secondsToTimestamp (seconds : N) : string :=
  let minutes := (seconds / 60)%N in
  let remainingSeconds := (seconds mod 60)%N in
  Number_toString minutes +:+ ":"
    +:+ padStart 2 "0" (Number_toString remainingSeconds).

(** The seconds field as [secondsToTimestamp] prints it for [r]: is it
    two digits that read back as [r]? *)
Definition two_digits_of (r : N) : bool :=
  match padStart 2 "0" (Number_toString r) with
  | String a (String b "") =>
      is_digit a && is_digit b && (parseInt10 (String a (String b "")) =? r)%N
  | _ => false
  end.

End TimeUtils.

(** ** backend/app/core/prompts.py: [PromptGenerator] *)

Module Prompts.

Inductive exn : Type :=
| KeyError (key : string)
| ValueError (msg : string).

(** *** [str.format] with keyword arguments

    A format string is split into literal text and replacement fields;
    [{{] and [}}] stand for one brace.  A field is looked up by its whole
    text among the keyword arguments: conversions ([!r]), format
    specifications ([:>10]) and attribute or index access are not modelled
    and come out as a [KeyError]; the templates of the source use none.
    The string is split in full before any field is looked up, so for a
    string that is malformed after a field missing from the arguments the
    model raises the [ValueError] where Python raises the [KeyError]; on a
    string that can be split, as the three templates can, the two agree. *)

Inductive piece : Type :=
| Lit (text : string)
| Field (name : string).

Inductive mode : Type :=
| InText
| InField (name : string).

Definition lit_cons (c : ascii) (ps : list piece) : list piece :=
  match ps with
  | Lit t :: rest => Lit (String c t) :: rest
  | _ => Lit (String c "") :: ps
  end.

Fixpoint parse_from (m : mode) (s : string) : result exn (list piece) :=
  match m with
  | InText =>
      match s with
      | "" => ok []
      | String c rest =>
          if Ascii.eqb c "{" then
            match rest with
            | "" => raise (ValueError "Single '{' encountered in format string")
            | String c2 rest2 =>
                if Ascii.eqb c2 "{"
                then do ps <- parse_from InText rest2; ok (lit_cons "{" ps)
                else parse_from (InField "") rest
            end
          else if Ascii.eqb c "}" then
            match rest with
            | "" => raise (ValueError "Single '}' encountered in format string")
            | String c2 rest2 =>
                if Ascii.eqb c2 "}"
                then do ps <- parse_from InText rest2; ok (lit_cons "}" ps)
                else raise (ValueError "Single '}' encountered in format string")
            end
          else do ps <- parse_from InText rest; ok (lit_cons c ps)
      end
  | InField name =>
      match s with
      | "" => raise (ValueError "expected '}' before end of string")
      | String c rest =>
          if Ascii.eqb c "}" then
            do ps <- parse_from InText rest; ok (Field name :: ps)
          else if Ascii.eqb c "{" then
            raise (ValueError "unexpected '{' in field name")
          else parse_from (InField (name +:+ String c "")) rest
      end
  end.

Definition parse_format (template : string) : result exn (list piece) :=
  parse_from InText template.

Fixpoint kwarg (name : string) (kwargs : list (string * string)) : option string :=
  match kwargs with
  | [] => None
  | (k, v) :: rest => if String.eqb k name then Some v else kwarg name rest
  end.

Fixpoint render (kwargs : list (string * string)) (ps : list piece)
  : result exn string :=
  match ps with
  | [] => ok ""
  | Lit t :: rest => do s <- render kwargs rest; ok (t +:+ s)
  | Field name :: rest =>
      match kwarg name kwargs with
      | None => raise (KeyError name)
      | Some v => do s <- render kwargs rest; ok (v +:+ s)
      end
  end.

(** [template.format(k1=v1, ..., kn=vn)] *)
Definition format (template : string) (kwargs : list (string * string))
  : result exn string :=
  do ps <- parse_format template; render kwargs ps.

(** *** The three BASE templates, as listed in the restructuring report
    (the arrow note beside [{role}] in the listing of BASE_OVERVIEW is
    commentary of the report, not template text). *)

Definition BASE_OVERVIEW : string :=
  unlines [
    "[ROLE]";
    "{role}";
    "";
    "[INPUT]";
    "아래에는 두 명 이상이 참여한 대담, 인터뷰, 패널 토론, Q&A 세션의 원문 스크립트가 제공됩니다.";
    "구어체, 중복, 끼어들기, 즉흥 발언이 포함될 수 있습니다.";
    "";
    "[OBJECTIVE]";
    "- 이 스크립트의 핵심 내용과 인사이트에 대해 8줄 이내로 요약하시오.";
    "인사이트는 이 스크립트의 독자가 얻어갈 수 있는 정보와 통찰, 이 컨텐츠만의 차별화된 내용이나 관점이 담기는 것이 필요하다";
    "";
    "==========";
    "[TARGET SCRIPT]";
    "{transcript}"
  ].

Definition BASE_DETAIL_DIALOGUE : string :=
  unlines [
    "[ROLE]";
    "{role}";
    "";
    "[INPUT]";
    "아래에는 두 명 이상이 참여한 대담, 인터뷰, 패널 토론, Q&A 세션의 원문 스크립트가 제공됩니다.";
    "";
    "[OBJECTIVE]";
    "# 상세 요약";
    "전체 스크립트를 아래 조건들에 따라 상세히 요약하시오.";
    "";
    "[OUTPUT REQUIREMENTS]";
    "* 화자별/발언순/주제별 상세 요약 (필수)";
    "   - 발언 순서를 유지한 채 요약하십시오.";
    "   - 각 발언은 반드시 화자를 명시하십시오.";
    "   - 각 대담의 내용을 소주제별로 그룹화하고, 소주제명 아래 해당되는 발언요약들을 넣으시오";
    "   - 중요한 메시지나 통찰을 담은 발언은 따옴표(" +:+ dq +:+ "" +:+ dq +:+ ") 안에 굵은 글씨로 원문을 인용하며 강조하시오";
    "   - 이 부분 요약 본문의 내용은 전체 스크립트 내용 분량의 20% 정도가 되는 것을 목표하시오";
    "";
    "* 핵심 질문과 답변 정리 (필수)";
    "* 관점 차이 및 합의 지점 (조건부)";
    "* 상세 요약문을 끝까지 출력한 후 맨 뒤에는 " +:+ dq +:+ "(Summarized from Youtube)" +:+ dq +:+ "라는 문구를 추가하시오";
    "";
    "[STYLE GUIDELINES]";
    "- 회의록 + 리서치 노트 중간 톤";
    "- 화자 의도 왜곡 금지";
    "";
    "[CONSTRAINTS]";
    "- 화자 혼동 금지";
    "- 발언 순서 임의 변경 금지";
    "";
    "==========";
    "[TARGET SCRIPT]";
    "{transcript}"
  ].

Definition BASE_DETAIL_PRESENTATION : string :=
  unlines [
    "[ROLE]";
    "{role}";
    "";
    "[INPUT]";
    "아래에는 단일 발표자 또는 소수의 발표자가 진행하는 강연, 발표, 세미나의 원문 스크립트가 제공됩니다.";
    "";
    "[OBJECTIVE]";
    "# 상세 요약";
    "전체 스크립트를 내용의 논리 구조와 메시지가 선명하게 드러나는 구조 중심 요약으로 작성하시오.";
    "";
    "[OUTPUT REQUIREMENTS]";
    "* 전체 강연 구조 요약 (필수)";
    "   - 발표의 논리 전개 구조를 목차 형태로 제시하십시오.";
    "   - 번호 기반 계층 구조를 사용하십시오. (1, 1.1, 1.2, 2, 2.1 ...)";
    "";
    "* 내용 순서별 상세 요약 (필수)";
    "   - 발표 순서를 유지한 채 내용을 요약하십시오.";
    "   - 소주제별로 그룹화하고, 각 소주제 아래 핵심 내용을 정리";
    "   - 전체 스크립트 분량의 20% 정도를 목표로 요약";
    "";
    "* 핵심 개념 및 프레임워크 정리 (필수)";
    "* 발표자의 핵심 메시지 및 결론 (필수)";
    "* 상세 요약문을 끝까지 출력한 후 맨 뒤에는 " +:+ dq +:+ "(Summarized from Youtube)" +:+ dq +:+ "라는 문구를 추가하시오";
    "";
    "[STYLE GUIDELINES]";
    "- 강의 노트 + 리서치 요약 톤";
    "- 논리 구조가 한눈에 보이도록 작성";
    "";
    "[CONSTRAINTS]";
    "- 시간 순 단순 나열 금지";
    "- 논리적 연결 없이 발언 나열 금지";
    "";
    "==========";
    "[TARGET SCRIPT]";
    "{transcript}"
  ].

(** *** The role registry

    [self.roles] is a dict from topic to role text.  The reports elide the
    texts of the dict literal; the table of the verification report gives
    them for the seven topics below.  The dict literal also has the key
    "default", whose text no report gives, so [documented_roles] is the
    table and not the whole dict: it serves as an example registry only.
    [create_prompt] takes the registry as the attribute of [self] it is. *)

Definition general_role : string :=
  "대담·인터뷰·패널 토론을 분석하는 전문 에디터이자 회의·대화 기록을 구조화하는 리서치 애널리스트".

Definition documented_roles : gmap string string :=
  list_to_map [
    ("general", general_role);
    ("tech", "최신 기술 트렌드와 엔지니어링 문맥을 깊이 이해하는 테크 전문 에디터이자 테크니컬 라이터");
    ("business", "비즈니스 전략과 시장 동향을 분석하는 경영 컨설턴트이자 비즈니스 애널리스트");
    ("ai", "AI/ML 분야의 기술적 깊이와 실용적 응용을 모두 이해하는 AI 리서치 애널리스트");
    ("economy", "경제 현상과 금융 시장을 분석하는 이코노미스트이자 금융 애널리스트");
    ("politics", "정치·사회 이슈를 객관적으로 분석하는 정책 연구원이자 사회 애널리스트");
    ("daily", "일상 컨텐츠의 재미있고 중요한 순간들을 포착하는 컨텐츠 큐레이터")
  ].

(** [self.roles[key]] *)
Definition getitem (roles : gmap string string) (key : string) : result exn string :=
  match roles !! key with
  | Some v => ok v
  | None => raise (KeyError key)
  end.

(** [self.roles.get(topic, default)]; [topic] may be [None], which is no
    key of the dict. *)
Definition dict_get (roles : gmap string string) (topic : option string)
    (default : string) : string :=
  match topic with
  | Some key => match roles !! key with Some v => v | None => default end
  | None => default
  end.

(** [role = self.roles.get(topic, self.roles["general"])]: the default is
    evaluated before the lookup. *)
Definition roleFor (roles : gmap string string) (topic : option string)
  : result exn string :=
  do general <- getitem roles "general";
  ok (dict_get roles topic general).

(** [format_type == "presentation"] *)
Definition is_presentation (format_type : option string) : bool :=
  match format_type with
  | Some f => String.eqb f "presentation"
  | None => false
  end.

(** The template [create_prompt] formats: the branches of its
    [if prompt_type == "overview"] and [if format_type == "presentation"]. *)
Definition templateFor (prompt_type : string) (format_type : option string) : string :=
  if String.eqb prompt_type "overview" then BASE_OVERVIEW
  else if is_presentation format_type then BASE_DETAIL_PRESENTATION
  else BASE_DETAIL_DIALOGUE.

(** [create_prompt(self, topic, format_type, transcript, prompt_type)] *)
Definition create_prompt (roles : gmap string string)
    (topic format_type : option string) (transcript : string)
    (prompt_type : string) : result exn string :=
  do role <- roleFor roles topic;
  if String.eqb prompt_type "overview" then
    format BASE_OVERVIEW [("role", role); ("transcript", transcript)]
  else
    let template :=
      if is_presentation format_type then BASE_DETAIL_PRESENTATION
      else BASE_DETAIL_DIALOGUE in
    format template [("role", role); ("transcript", transcript)].

(** The two placeholders of the templates. *)
Definition role_slot : string := "{role}".
Definition transcript_slot : string := "{transcript}".

(** Neither placeholder occurs in the text. *)
Definition resolved (s : string) : bool :=
  negb (contains role_slot s) && negb (contains transcript_slot s).

(** The shape the three templates share once parsed: brace-free text, the
    role, a line feed followed by brace-free text, the transcript. *)
Definition two_slot_shape (ps : list piece) : bool :=
  match ps with
  | [Lit pre; Field f1; Lit (String c mid); Field f2] =>
      String.eqb f1 "role" && String.eqb f2 "transcript"
      && negb (has_char "{" pre)
      && Ascii.eqb c (ascii_of_nat 10) && negb (has_char "{" mid)
  | _ => false
  end.

Definition parses_to_two_slots (template : string) : bool :=
  match parse_format template with
  | inr ps => two_slot_shape ps
  | inl _ => false
  end.

End Prompts.

(** ** backend/app/core/cache.py: [TranscriptCache]

    The module is known through the transcript-cache report, which names
    its methods ([set], [get], [clear_expired], [stats]) and the 24 hour
    TTL.  The clock is passed in as [now], in seconds. *)

Module Cache.

(** Modelled from the spec: the cache module is missing; an entry is the
    TranscriptCacheEntry of the data model (the content id is the key under
    which the entry is stored). *)
Record entry : Type := Entry {
  rawText : string;
  createdAt : Z;
  expiresAt : Z
}.

(** Modelled from the spec: the cache module is missing; the TTL is fixed at
    24 hours. *)
Definition TTL : Z := 24 * 60 * 60.

(** Modelled from the spec: the cache module is missing;
    [put(contentId, rawText)] stores or overwrites the entry, stamping
    [createdAt = now] and [expiresAt = now + TTL] ([set] in the report). *)
Definition put (cache : gmap string entry) (now : Z) (contentId rawText : string)
  : gmap string entry :=
  <[contentId := Entry rawText now (now + TTL)]> cache.

(** Modelled from the spec: the cache module is missing; [get(contentId)]
    returns the text only if [now <= expiresAt], otherwise it behaves as
    absent, and an entry read after its expiry is evicted. *)
Definition get (cache : gmap string entry) (now : Z) (contentId : string)
  : option string * gmap string entry :=
  match cache !! contentId with
  | None => (None, cache)
  | Some e =>
      if (now <=? expiresAt e)%Z then (Some (rawText e), cache)
      else (None, delete contentId cache)
  end.

(** Modelled from the spec: the cache module is missing; [sweep()] removes
    all entries with [now > expiresAt] and returns how many it removed
    ([clear_expired] in the report). *)
Definition sweep (cache : gmap string entry) (now : Z) : nat * gmap string entry :=
  let live := filter (fun kv => (now <= expiresAt kv.2)%Z) cache in
  (size cache - size live, live).

End Cache.

(** ** backend/app/api/endpoints.py *)

Module Endpoints.

(** [HTTPException(status_code=..., detail={...})] *)
Record HTTPException : Type := {
  status_code : Z;
  error : string;
  message : string;
  suggestion : string
}.

(** The body of POST /api/prompts/custom ([CustomSummarizeRequest]; the
    fields are those the client sends in api.ts). *)
Record CustomSummarizeRequest : Type := {
  video_id : string;
  transcript : option string;
  custom_overview_prompt : option string;
  custom_detail_prompt : option string;
  ai_provider : string;
  model : option string
}.

(** Truth value of an optional Python string: [None] and the empty string
    are false. *)
Definition truthy (s : option string) : bool :=
  match s with
  | Some (String _ _) => true
  | _ => false
  end.

(** [a or b] on strings *)
Definition or_else (a : option string) (b : string) : string :=
  match a with
  | Some (String c s) => String c s
  | _ => b
  end.

Definition transcript_not_found : HTTPException := {|
  status_code := 404;
  error := "transcript_not_found";
  message := "저장된 스크립트를 찾을 수 없습니다";
  suggestion := "영상을 다시 요약해주세요"
|}.

(** The block [# Get transcript from cache or request] of the custom
    summarize endpoint; the cache is threaded because a read may evict. *)
Definition get_transcript (cache : gmap string Cache.entry) (now : Z)
    (request : CustomSummarizeRequest)
  : result HTTPException string * gmap string Cache.entry :=
  if truthy (transcript request) then
    (ok (or_else (transcript request) ""), cache)
  else
    let '(cached, cache') := Cache.get cache now (video_id request) in
    if negb (truthy cached) then (raise transcript_not_found, cache')
    else (ok (or_else cached ""), cache').


End Endpoints.

(** ** frontend/src/services/api.ts *)

Module Api.

(** What a [catch] clause receives: an [Error] object with its message, or
    some other thrown value. *)
Inductive Thrown : Type :=
| JsError (message : string)
| NotAnError.

(** What the network does to one request, as the [try] block meets it:
    - [Rejected e]: something other than the [throw new Error(message)] of
      the block threw [e] inside it: [fetch], [response.json()], or the
      read of [errorData.detail] on a body that is [null];
    - [NotOk m]: a response with [response.ok] false whose body was parsed;
      [m] is [errorData.detail?.message] ([None] for undefined);
    - [Ok data]: a response with [response.ok] true and its parsed body,
      taken at the type the function declares for it. *)
Inductive FetchOutcome (A : Type) : Type :=
| Rejected (e : Thrown)
| NotOk (detail_message : option string)
| Ok (data : A).

Arguments Rejected {A} e.
Arguments NotOk {A} detail_message.
Arguments Ok {A} data.

(** [m || fallback] on an optional string: undefined and the empty string
    give the fallback. *)
Definition or_message (m : option string) (fallback : string) : string :=
  match m with
  | Some (String c s) => String c s
  | _ => fallback
  end.

(** The shape shared by the request functions of api.ts:

    [[
    try {
      const response = await fetch(...);
      if (!response.ok) {
        const errorData: ApiError = await response.json();
        const message = errorData.detail?.message || notOkMessage;
        throw new Error(message);
      }
      return await response.json();
    } catch (error) {
      if (error instanceof Error) { throw error; }
      throw new Error(failedMessage);
    }
    ]] *)
Definition request {A : Type} (notOkMessage failedMessage : string)
    (outcome : FetchOutcome A) : result Thrown A :=
  match outcome with
  | Ok data => ok data
  | NotOk m => raise (JsError (or_message m notOkMessage))
  | Rejected (JsError m) => raise (JsError m)
  | Rejected NotAnError => raise (JsError failedMessage)
  end.

Record TranslateBatchParams : Type := {
  tb_video_id : string;
  segments : list string;
  tb_ai_provider : string;
  tb_model : option string
}.

Record TranslateBatchResponse : Type := {
  translations : list string
}.

(** [translateBatch(params)]: POST /api/translate/batch with the params as
    the JSON body.  The params do not enter the handling of the response. *)
Definition translateBatch (params : TranslateBatchParams)
    (outcome : FetchOutcome TranslateBatchResponse)
  : result Thrown TranslateBatchResponse :=
  request "전체 번역 중 오류가 발생했습니다" "전체 번역 요청에 실패했습니다" outcome.

(** [result.translations.forEach((translation, index) =>
      newTranslations.set(index, translation))] on a new [Map], in the
    transcript panel's [handleTranslateFull]. *)
Definition newTranslations (ts : list string) : gmap nat string :=
  foldl (fun m it => <[it.1 := it.2]> m) ∅ (imap (fun i t => (i, t)) ts).

Record ChatParams : Type := {
  video_id : string;
  message : string;
  conversation_history : list (string * string);
  ai_provider : string;
  model : option string
}.

Record ChatResponse : Type := {
  reply_video_id : string;
  reply : string
}.

(** [chatWithVideo(params)]: POST /api/chat. *)
Definition chatWithVideo (params : ChatParams) (outcome : FetchOutcome ChatResponse)
  : result Thrown ChatResponse :=
  request "채팅 중 오류가 발생했습니다" "채팅 요청에 실패했습니다" outcome.

End Api.

(** ** frontend/src/components/dashboard/ChatPanel.tsx *)

Module ChatPanel.

Inductive Role : Type := user | assistant.

Definition role_name (r : Role) : string :=
  match r with
  | user => "user"
  | assistant => "assistant"
  end.

Record Message : Type := {
  id : string;
  role : Role;
  content : string
}.

(** The component's state; a turn of [conversationHistory] is the pair
    [{ role, content }]. *)
Record State : Type := {
  messages : list Message;
  input : string;
  isLoading : bool;
  conversationHistory : list (string * string)
}.

Record Props : Type := {
  videoId : string;
  aiProvider : string;
  model : option string
}.

(** White space of [String.prototype.trim], on UTF-8 bytes: TAB, LF, VT, FF,
    CR, SP; U+00A0; U+1680; U+2000..U+200A, U+2028, U+2029, U+202F, U+205F;
    U+3000; U+FEFF. *)
Definition ws1 (a : N) : bool :=
  ((9 <=? a) && (a <=? 13) || (a =? 32))%N.

Definition ws2 (a b : N) : bool :=
  ((a =? 194) && (b =? 160))%N.

Definition ws3 (a b c : N) : bool :=
  ((a =? 225) && (b =? 154) && (c =? 128)
   || (a =? 226) && (b =? 128)
        && ((128 <=? c) && (c <=? 138) || (c =? 168) || (c =? 169) || (c =? 175))
   || (a =? 226) && (b =? 129) && (c =? 159)
   || (a =? 227) && (b =? 128) && (c =? 128)
   || (a =? 239) && (b =? 187) && (c =? 191))%N.

(** [!s.trim()]: the text is nothing but white space. *)
Fixpoint blank (s : string) : bool :=
  match s with
  | "" => true
  | String a r1 =>
      if ws1 (N_of_ascii a) then blank r1
      else
        match r1 with
        | "" => false
        | String b r2 =>
            if ws2 (N_of_ascii a) (N_of_ascii b) then blank r2
            else
              match r2 with
              | "" => false
              | String c r3 =>
                  if ws3 (N_of_ascii a) (N_of_ascii b) (N_of_ascii c)
                  then blank r3 else false
              end
        end
  end.

(** What [handleSubmit] has done when it reaches [await]: the state after
    its updates, the request it sends, and [newHistory], which the rest of
    the handler still holds. *)
Record Pending : Type := {
  state_sent : State;
  sent : Api.ChatParams;
  newHistory : list (string * string)
}.

(** [handleSubmit] up to the [await]; [None] is the early [return].
    [now] is the value of [Date.now()]. *)
Definition handleSubmit_send (props : Props) (st : State) (now : N)
  : option Pending :=
  if blank (input st) || isLoading st then None
  else
    let userMessage :=
      {| id := TimeUtils.Number_toString now; role := user;
         content := input st |} in
    let newHistory := conversationHistory st ++ [("user", input st)] in
    Some {|
      state_sent := {|
        messages := messages st ++ [userMessage];
        input := "";
        isLoading := true;
        conversationHistory := newHistory |};
      sent := {|
        Api.video_id := videoId props;
        Api.message := input st;
        Api.conversation_history := conversationHistory st;
        Api.ai_provider := aiProvider props;
        Api.model := model props |};
      newHistory := newHistory |}.

(** [handleSubmit] from the [await] on: [st] is the state the updates meet
    ([setMessages] takes the previous messages from it), [newHistory] the
    value computed before the [await].  The second component is the text of
    [toast.error], if any. *)
Definition handleSubmit_settle (st : State) (newHistory : list (string * string))
    (response : result Api.Thrown Api.ChatResponse) (now : N)
  : State * option string :=
  match response with
  | inr response =>
      let assistantMessage :=
        {| id := TimeUtils.Number_toString (now + 1); role := assistant;
           content := Api.reply response |} in
      ({| messages := messages st ++ [assistantMessage];
          input := input st;
          isLoading := false;
          conversationHistory :=
            newHistory ++ [("assistant", Api.reply response)] |},
       None)
  | inl (Api.JsError m) =>
      ({| messages := messages st; input := input st; isLoading := false;
          conversationHistory := conversationHistory st |},
       Some m)
  | inl Api.NotAnError =>
      ({| messages := messages st; input := input st; isLoading := false;
          conversationHistory := conversationHistory st |},
       Some "채팅 중 오류가 발생했습니다")
  end.

(** One submission whose request is answered by [outcome], with nothing
    else touching the component in between. *)
Definition handleSubmit (props : Props) (st : State) (now : N)
    (outcome : Api.FetchOutcome Api.ChatResponse) (later : N)
  : option (Api.ChatParams * (State * option string)) :=
  match handleSubmit_send props st now with
  | None => None
  | Some p =>
      Some (sent p,
            handleSubmit_settle (state_sent p) (newHistory p)
              (Api.chatWithVideo (sent p) outcome) later)
  end.

End ChatPanel.

(** ** More of frontend/src/services/api.ts, with frontend/src/types/prompts.ts *)

Module ApiRequests.

(** [VideoData] of types/prompts.ts. *)
Record VideoData : Type := {
  video_id : string;
  title : string;
  full_transcript : string;
  summary_overview : string;
  summary_detail : string;
  category : option string;
  format_type : option string;
  prompts_used : option (string * string);
  ai_provider : option string;
  model : option string
}.

(** Truth value of an optional JS string: undefined and the empty string
    are false. *)
Definition truthy (s : option string) : bool :=
  match s with
  | Some (String _ _) => true
  | _ => false
  end.



Definition summarizeVideo (outcome : Api.FetchOutcome VideoData)
  : result Api.Thrown VideoData :=
  Api.request "영상 처리 중 오류가 발생했습니다"
    "서버와의 연결에 실패했습니다. 백엔드가 실행 중인지 확인해주세요." outcome.


End ApiRequests.

(** ** The transcript panel (src/unnamed/part_003) *)

Module TranscriptPanel.

(** The text after one leading white-space character, if there is one. *)
Definition ws_char_rest (s : string) : option string :=
  match s with
  | "" => None
  | String a r1 =>
      if ChatPanel.ws1 (N_of_ascii a) then Some r1
      else
        match r1 with
        | "" => None
        | String b r2 =>
            if ChatPanel.ws2 (N_of_ascii a) (N_of_ascii b) then Some r2
            else
              match r2 with
              | "" => None
              | String c r3 =>
                  if ChatPanel.ws3 (N_of_ascii a) (N_of_ascii b) (N_of_ascii c)
                  then Some r3 else None
              end
        end
  end.

Fixpoint trimStart (s : string) : string :=
  match s with
  | "" => ""
  | String a r1 =>
      if ChatPanel.ws1 (N_of_ascii a) then trimStart r1
      else
        match r1 with
        | "" => s
        | String b r2 =>
            if ChatPanel.ws2 (N_of_ascii a) (N_of_ascii b) then trimStart r2
            else
              match r2 with
              | "" => s
              | String c r3 =>
                  if ChatPanel.ws3 (N_of_ascii a) (N_of_ascii b) (N_of_ascii c)
                  then trimStart r3 else s
              end
        end
  end.

(** The text without its white-space tail: it ends where only white space
    follows. *)
Fixpoint trimEnd (s : string) : string :=
  match s with
  | "" => ""
  | String a rest => if ChatPanel.blank s then "" else String a (trimEnd rest)
  end.

(** [s.trim()] *)
Definition trim (s : string) : string := trimEnd (trimStart s).

(** [line.match(/^(\d+:\d{2})\s+([\s\S]+)/)], as the panel uses it: the
    pair of [match[1]] and [match[2].trim()], or [None] for [null].  After
    the two digits, [\s+] needs one white-space character and [[\s\S]+] one
    more character of any kind; group 2 starts after the white space that
    follows the digits (or is its last character, when nothing else
    follows), so trimmed it is the trimmed rest of the line. *)
Definition match_line (line : string) : option (string * string) :=
  match TimeUtils.span_digits line with
  | (String m ms, String ":" (String a (String b rest))) =>
      if TimeUtils.is_digit a && TimeUtils.is_digit b then
        match ws_char_rest rest with
        | Some (String c r) =>
            Some (String m ms +:+ ":" +:+ String a (String b ""),
                  trim (String c r))
        | _ => None
        end
      else None
  | _ => None
  end.

(** [const timestamp = match ? match[1] : null] *)
Definition line_timestamp (line : string) : option string :=
  match match_line line with
  | Some (timestamp, _) => Some timestamp
  | None => None
  end.

(** [match ? match[2].trim() : line] *)
Definition line_text (line : string) : string :=
  match match_line line with
  | Some (_, text) => text
  | None => line
  end.

(** [s.split("\n\n")]: the first piece and the pieces after it. *)
Fixpoint split_pieces (s : string) : string * list string :=
  match s with
  | "" => ("", [])
  | String c rest =>
      match rest with
      | "" => (String c "", [])
      | String c2 rest2 =>
          if Ascii.eqb c (ascii_of_nat 10) && Ascii.eqb c2 (ascii_of_nat 10)
          then ("", let '(p, ps) := split_pieces rest2 in p :: ps)
          else let '(p, ps) := split_pieces rest in (String c p, ps)
      end
  end.

Definition split (s : string) : list string :=
  let '(p, ps) := split_pieces s in p :: ps.

(** [const lines = transcript.split("\n\n").filter((line) => line.trim())] *)
Definition lines_of (transcript : string) : list string :=
  List.filter (fun line => negb (ChatPanel.blank line)) (split transcript).

Record State : Type := {
  showTranslation : bool;
  segmentTranslations : gmap nat string;
  translatingSegments : gset nat;
  isTranslatingFull : bool
}.

Record Props : Type := {
  videoId : string;
  aiProvider : string;
  model : option string;
  onTimestampClick : bool
}.

(** [handleTimestampClick(timestamp)]: the seconds handed to
    [onTimestampClick], when the panel was given one. *)
Definition handleTimestampClick (props : Props) (timestamp : string) : option N :=
  if onTimestampClick props then Some (TimeUtils.timestampToSeconds timestamp)
  else None.

Definition toggled (st : State) : State :=
  {| showTranslation := negb (showTranslation st);
     segmentTranslations := segmentTranslations st;
     translatingSegments := translatingSegments st;
     isTranslatingFull := isTranslatingFull st |}.

(** [handleTranslateFull] up to the [await]: the state it leaves and the
    request it sends, if any. *)
Definition handleTranslateFull_click (props : Props) (lines : list string)
    (st : State) : State * option Api.TranslateBatchParams :=
  if Nat.eqb (size (segmentTranslations st)) (length lines) then (toggled st, None)
  else if Nat.ltb 0 (size (segmentTranslations st)) then (toggled st, None)
  else
    ({| showTranslation := showTranslation st;
        segmentTranslations := segmentTranslations st;
        translatingSegments := translatingSegments st;
        isTranslatingFull := true |},
     Some {| Api.tb_video_id := videoId props;
             Api.segments := map line_text lines;
             Api.tb_ai_provider := aiProvider props;
             Api.tb_model := model props |}).

(** [handleTranslateFull] from the [await] on; the second component is the
    text of the toast. *)
Definition handleTranslateFull_settle (st : State)
    (response : result Api.Thrown Api.TranslateBatchResponse) : State * string :=
  match response with
  | inr result =>
      ({| showTranslation := true;
          segmentTranslations := Api.newTranslations (Api.translations result);
          translatingSegments := translatingSegments st;
          isTranslatingFull := false |},
       "전체 번역이 완료되었습니다")
  | inl e =>
      ({| showTranslation := showTranslation st;
          segmentTranslations := segmentTranslations st;
          translatingSegments := translatingSegments st;
          isTranslatingFull := false |},
       match e with
       | Api.JsError m => m
       | Api.NotAnError => "전체 번역 중 오류가 발생했습니다"
       end)
  end.

(** [handleTranslateSegment(index, text)] up to the [await]; [None] is the
    early [return]. *)
Definition handleTranslateSegment_send (st : State) (index : nat)
  : option State :=
  if decide (index ∈ translatingSegments st) then None
  else if decide (is_Some (segmentTranslations st !! index)) then None
  else
    Some {| showTranslation := showTranslation st;
            segmentTranslations := segmentTranslations st;
            translatingSegments := translatingSegments st ∪ {[index]};
            isTranslatingFull := isTranslatingFull st |}.

(** [handleTranslateSegment] from the [await] on, on the state the
    functional updates meet. *)
Definition handleTranslateSegment_settle (st : State) (index : nat)
    (response : result Api.Thrown string) : State * string :=
  match response with
  | inr translation =>
      ({| showTranslation := showTranslation st;
          segmentTranslations := <[index := translation]> (segmentTranslations st);
          translatingSegments := translatingSegments st ∖ {[index]};
          isTranslatingFull := isTranslatingFull st |},
       "번역이 완료되었습니다")
  | inl e =>
      ({| showTranslation := showTranslation st;
          segmentTranslations := segmentTranslations st;
          translatingSegments := translatingSegments st ∖ {[index]};
          isTranslatingFull := isTranslatingFull st |},
       match e with
       | Api.JsError m => m
       | Api.NotAnError => "번역 중 오류가 발생했습니다"
       end)
  end.

End TranscriptPanel.

(** ** The dashboard page (src/unnamed/part_004, [Dashboard]) *)

Module Dashboard.

(** [handleTimestampClick(seconds)]: what is sought and what the toast
    says.  [videoPlayerRef] tells whether [videoPlayerRef.current] is set,
    [playerRef] whether the YouTube player inside the video player is
    ([seekTo] of VideoPlayer.tsx does nothing before the player is ready). *)
Definition handleTimestampClick (videoPlayerRef playerRef : bool) (seconds : N)
  : option N * option string :=
  if videoPlayerRef then
    (if playerRef then Some seconds else None,
     Some (TimeUtils.Number_toString (seconds / 60) +:+ ":"
             +:+ TimeUtils.padStart 2 "0" (TimeUtils.Number_toString (seconds mod 60))
             +:+ "로 이동"))
  else (None, None).

(** A click on a timestamp of the transcript panel, through to the
    dashboard's handler. *)
Definition timestamp_clicked (videoPlayerRef playerRef : bool)
    (props : TranscriptPanel.Props) (timestamp : string)
  : option N * option string :=
  match TranscriptPanel.handleTimestampClick props timestamp with
  | Some seconds => handleTimestampClick videoPlayerRef playerRef seconds
  | None => (None, None)
  end.



End Dashboard.

(** ** The start page (src/unnamed/part_004, [Index]) *)

Module Index.

Inductive ProcessStep : Type :=
| validating | verifying | extracting | summarizing | complete.

Definition getSuggestion (errorMessage : string) : string :=
  if contains "URL" errorMessage then "올바른 YouTube URL을 입력해주세요"
  else if contains "자막" errorMessage then "자막이 있는 다른 영상을 시도해주세요"
  else if contains "API" errorMessage then "API 키 설정을 확인해주세요"
  else if contains "차단" errorMessage then "잠시 후 다시 시도하거나 네트워크를 변경해주세요"
  else if contains "연령 제한" errorMessage then "다른 영상을 시도해주세요"
  else "잠시 후 다시 시도해주세요".

Definition getErrorStep (errorMessage : string) (currentStep : ProcessStep)
  : ProcessStep :=
  if contains "URL" errorMessage || contains "유효하지" errorMessage then validating
  else if contains "영상을 찾을 수 없" errorMessage
          || contains "연령 제한" errorMessage
          || contains "재생할 수 없" errorMessage then verifying
  else if contains "자막" errorMessage
          || contains "스크립트" errorMessage
          || contains "차단" errorMessage then extracting
  else if contains "API" errorMessage || contains "요약" errorMessage then summarizing
  else currentStep.

(** [[^&\n?#]] *)
Definition id_char (c : ascii) : bool :=
  negb (Ascii.eqb c "&" || Ascii.eqb c (ascii_of_nat 10)
        || Ascii.eqb c "?" || Ascii.eqb c "#").

(** Longest prefix of [id_char]s. *)
Fixpoint span_id (s : string) : string :=
  match s with
  | "" => ""
  | String c rest => if id_char c then String c (span_id rest) else ""
  end.

(** The text after [p], when the text starts with [p]. *)
Fixpoint strip_prefix (p s : string) : option string :=
  match p with
  | "" => Some s
  | String a p' =>
      match s with
      | "" => None
      | String b s' => if Ascii.eqb a b then strip_prefix p' s' else None
      end
  end.

(** One alternative of the pattern followed by [([^&\n?#]+)], at the start
    of the text: the group. *)
Definition capture_after (p s : string) : option string :=
  match strip_prefix p s with
  | Some rest =>
      match span_id rest with
      | "" => None
      | String c cs => Some (String c cs)
      end
  | None => None
  end.

(** The pattern
    [(?:youtube\.com\/watch\?v=|youtu\.be\/|youtube\.com\/embed\/)([^&\n?#]+)]
    at the start of the text. *)
Definition match_here (s : string) : option string :=
  match capture_after "youtube.com/watch?v=" s with
  | Some id => Some id
  | None =>
      match capture_after "youtu.be/" s with
      | Some id => Some id
      | None => capture_after "youtube.com/embed/" s
      end
  end.

(** [extractVideoId(url)]: the group of the leftmost match, [None] for
    [null]. *)
Fixpoint extractVideoId (url : string) : option string :=
  match match_here url with
  | Some id => Some id
  | None =>
      match url with
      | "" => None
      | String _ rest => extractVideoId rest
      end
  end.

(** The [catch] block of [handleSubmit] for a failure that is no abort: the
    step the error is shown at, its message and its suggestion.
    [currentStep] is [processState.currentStep] as the handler holds it. *)
(** [ProcessError] and [ProcessState] of types/progress.ts.  [progress]
    is a JS number that the code below only copies; its type is left
    open. *)
Record ProcessError : Type := {
  step : ProcessStep;
  code : string;
  message : string;
  suggestion : option string
}.

Record ProcessState {number : Type} : Type := {
  currentStep : ProcessStep;
  progress : number;
  error : option ProcessError
}.
Arguments ProcessState number : clear implicits.

(** [useState<ProcessState>({ currentStep: 'validating', progress: 0 })] *)
Definition initialProcessState {number : Type} (zero : number)
  : ProcessState number :=
  {| currentStep := validating; progress := zero; error := None |}.

(** The [catch] block of [handleSubmit].  [processState] is the constant
    of the render whose [handleSubmit] is running: the [setProcessState]
    calls made since the submission (by [updateStep] and by the timer) do
    not change it.  The result is the argument of [setProcessState] and the
    text of the toast; [None] is the early [return] after an abort. *)
Definition handleSubmit_catch {number : Type} (aborted : bool)
    (processState : ProcessState number) (error : Api.Thrown)
  : option (ProcessState number * string) :=
  if aborted then None
  else
    let errorMessage :=
      match error with
      | Api.JsError m => m
      | Api.NotAnError => "영상 처리 중 오류가 발생했습니다"
      end in
    let errorStep := getErrorStep errorMessage (currentStep processState) in
    Some ({| currentStep := errorStep;
             progress := progress processState;
             error := Some {| step := errorStep;
                              code := "processing_error";
                              message := errorMessage;
                              suggestion := Some (getSuggestion errorMessage) |} |},
          errorMessage).

End Index.

(** ** The settings page (in src/frontend/src/components/dashboard/VideoPlayer.tsx,
       [AdminSettings]) *)

Module AdminSettings.

(** [newProvider === 'gemini' ? 'gemini-2.0-flash-exp' : 'gpt-4o-mini'] in
    [handleProviderChange]. *)
Definition defaultModel (newProvider : string) : string :=
  if String.eqb newProvider "gemini" then "gemini-2.0-flash-exp" else "gpt-4o-mini".

(** The [value]s of [getModelOptions()]. *)
Definition getModelOptions (aiProvider : string) : list string :=
  if String.eqb aiProvider "gemini" then
    ["gemini-2.0-flash-exp"; "gemini-1.5-flash"; "gemini-1.5-pro";
     "gemini-2.0-pro-exp"]
  else
    ["gpt-4o-mini"; "gpt-4o"; "gpt-4-turbo"; "gpt-4"; "o1-preview"; "o1-mini"].

End AdminSettings.

(** ** More of ChatPanel.tsx: the initial state and the effect on a change
       of video *)

Module ChatPanelState.
Import ChatPanel.

Definition greeting : Message :=
  {| id := "1"; role := assistant;
     content := "안녕하세요! 영상 내용에 대해 궁금한 점이 있으시면 질문해 주세요. 스크립트를 기반으로 답변해 드리겠습니다." |}.

(** [{ role: msg.role, content: msg.content }] *)
Definition turn_of (msg : Message) : string * string :=
  (role_name (role msg), content msg).

(** The effect on [videoId] and [initialMessages]. *)
Definition useEffect_reset (initialMessages : option (list Message)) (st : State)
  : State :=
  match initialMessages with
  | Some ms =>
      {| messages := ms; input := input st; isLoading := isLoading st;
         conversationHistory := map turn_of (drop 1 ms) |}
  | None =>
      {| messages := [greeting]; input := input st; isLoading := isLoading st;
         conversationHistory := [] |}
  end.

(** The history holds the turns of all messages but the first. *)
Definition mirrors (st : State) : Prop :=
  conversationHistory st = map turn_of (drop 1 (messages st)).

End ChatPanelState.

(** ** More on the composed prompt *)

Module PromptShape.
Import Prompts.

(** The line that separates the instructions from the script, and the
    header of the script. *)
Definition script_header : string :=
  "==========" +:+ nl +:+ "[TARGET SCRIPT]" +:+ nl.

Fixpoint ends_with (suffix s : string) : bool :=
  String.eqb suffix s ||
  match s with
  | "" => false
  | String _ rest => ends_with suffix rest
  end.

(** The text of a two-slot template between the role and the transcript. *)
Definition instructions (template : string) : string :=
  match parse_format template with
  | inr [Lit _; Field _; Lit mid; Field _] => mid
  | _ => ""
  end.

(** The shape of [two_slot_shape], with the text before the role being the
    [[ROLE]] line and the text before the transcript ending in the script
    header. *)
Definition role_then_script (template : string) : bool :=
  match parse_format template with
  | inr [Lit pre; Field f1; Lit mid; Field f2] =>
      String.eqb pre ("[ROLE]" +:+ nl)
      && String.eqb f1 "role" && String.eqb f2 "transcript"
      && ends_with (nl +:+ script_header) mid
  | _ => false
  end.

End PromptShape.

(** * Part II: facts *)

(** Boolean conjunctions among the hypotheses, taken apart, and boolean
    tests turned into the equations they decide. *)
Ltac split_andb :=
  repeat match goal with
  | H : _ && _ = true |- _ => apply andb_prop in H as [? ?]
  end.

Ltac reflect_tests :=
  repeat match goal with
  | H : String.eqb _ _ = true |- _ => apply String.eqb_eq in H; subst
  | H : Ascii.eqb _ _ = true |- _ => apply Ascii.eqb_eq in H; subst
  | H : negb _ = true |- _ => apply negb_true_iff in H
  | H : N.eqb _ _ = true |- _ => apply N.eqb_eq in H
  end.

(** * Facts about timeUtils.ts *)

Section TimeUtilsFacts.
Import TimeUtils.

Lemma digit_char_value (d : N) : (d < 10)%N -> digit_value (digit_char d) = d.
Proof.
  intros Hd. unfold digit_value, digit_char.
  rewrite N_ascii_embedding by lia. lia.
Qed.

Lemma digit_char_is_digit (d : N) : (d < 10)%N -> is_digit (digit_char d) = true.
Proof.
  intros Hd. unfold is_digit, digit_char.
  rewrite N_ascii_embedding by lia.
  apply andb_true_intro; split; apply N.leb_le; lia.
Qed.

Lemma all_digits_app (s t : string) :
  all_digits (s +:+ t) = all_digits s && all_digits t.
Proof.
  induction s as [|c s IH]; simpl; [reflexivity|].
  rewrite IH. apply andb_assoc.
Qed.

Lemma parseInt_from_app (s t : string) (acc : N) :
  all_digits s = true ->
  parseInt_from acc (s +:+ t) = parseInt_from (parseInt_from acc s) t.
Proof.
  revert acc. induction s as [|c s IH]; intros acc Hs; simpl in *; [reflexivity|].
  apply andb_prop in Hs as [Hc Hs]. rewrite Hc. now apply IH.
Qed.

Lemma span_digits_stop (s : string) (c : ascii) (rest : string) :
  all_digits s = true -> is_digit c = false ->
  span_digits (s +:+ String c rest) = (s, String c rest).
Proof.
  intros Hs Hc. induction s as [|a s IH]; simpl in *.
  - now rewrite Hc.
  - apply andb_prop in Hs as [Ha Hs]. rewrite Ha, (IH Hs). reflexivity.
Qed.

Lemma append_nonempty (s t : string) : s <> "" -> exists a r, s +:+ t = String a r.
Proof. destruct s as [|a s]; [congruence|]. intros _. simpl. eauto. Qed.

(** The digits printed for [n] are digits, at least one, and read back
    as [n]. *)
Lemma decimal_fuel_spec (fuel : nat) (n : N) :
  (n < 2 ^ N.of_nat fuel)%N ->
  all_digits (decimal_fuel fuel n) = true
  /\ decimal_fuel fuel n <> ""
  /\ parseInt_from 0 (decimal_fuel fuel n) = n.
Proof.
  revert n. induction fuel as [|f IH]; intros n Hn.
  - assert (n = 0%N) as -> by (simpl in Hn; lia).
    split; [reflexivity | split; [discriminate | reflexivity]].
  - cbn [decimal_fuel]. destruct (N.ltb_spec n 10) as [Hlt|Hge].
    + repeat split.
      * simpl. now rewrite digit_char_is_digit.
      * discriminate.
      * simpl. rewrite digit_char_is_digit, digit_char_value by assumption. reflexivity.
    + assert (n / 10 < 2 ^ N.of_nat f)%N as Hdiv.
      { rewrite Nat2N.inj_succ, N.pow_succ_r' in Hn.
        apply N.Div0.div_lt_upper_bound. lia. }
      destruct (IH _ Hdiv) as (Hd & Hne & Hp).
      assert (n mod 10 < 10)%N as Hm by (apply N.mod_lt; lia).
      repeat split.
      * rewrite all_digits_app, Hd. simpl. now rewrite digit_char_is_digit.
      * destruct (append_nonempty _ (String (digit_char (n mod 10)) "") Hne)
          as (a & r & ->). discriminate.
      * rewrite parseInt_from_app, Hp by assumption. simpl.
        rewrite digit_char_is_digit, digit_char_value by assumption.
        pose proof (N.div_mod n 10). lia.
Qed.

Lemma decimal_spec (n : N) :
  all_digits (decimal n) = true /\ decimal n <> "" /\ parseInt10 (decimal n) = n.
Proof.
  unfold decimal, parseInt10. apply decimal_fuel_spec.
  rewrite N2Nat.id. apply N.size_gt.
Qed.

Lemma two_digits_below_60 (r : N) : (r < 60)%N -> two_digits_of r = true.
Proof.
  intros Hr.
  assert (forallb two_digits_of (map N.of_nat (seq 0 60)) = true) as Hall
    by (vm_compute; reflexivity).
  rewrite forallb_forall in Hall. apply Hall.
  apply in_map_iff. exists (N.to_nat r). split; [apply N2Nat.id|].
  apply in_seq. lia.
Qed.

Lemma timestamp_of_parts (m r : N) (a b : ascii) :
  is_digit a = true -> is_digit b = true ->
  parseInt10 (String a (String b "")) = r ->
  timestampToSeconds (decimal m +:+ ":" +:+ String a (String b "")) = (m * 60 + r)%N.
Proof.
  intros Ha Hb Hr. destruct (decimal_spec m) as (Hd & Hne & Hp).
  unfold timestampToSeconds, match_timestamp.
  change (":" +:+ String a (String b "")) with (String ":" (String a (String b ""))).
  rewrite span_digits_stop by (assumption || reflexivity).
  destruct (decimal m) as [|m0 ms] eqn:E; [congruence|].
  rewrite Ha, Hb. simpl andb. cbv iota beta. rewrite Hp, Hr. reflexivity.
Qed.

Lemma roundtrip_below (s : N) :
  (s / 60 < 10 ^ 21)%N -> timestampToSeconds (secondsToTimestamp s) = s.
Proof.
  intros Hm. unfold secondsToTimestamp.
  assert (s mod 60 < 60)%N as Hr by (apply N.mod_lt; lia).
  pose proof (two_digits_below_60 _ Hr) as H2. unfold two_digits_of in H2.
  destruct (padStart 2 "0" (Number_toString (s mod 60))) as [|a [|b [|? ?]]];
    try discriminate.
  split_andb. reflect_tests.
  unfold Number_toString at 1. apply N.ltb_lt in Hm. rewrite Hm.
  rewrite (timestamp_of_parts (s / 60) (s mod 60) a b) by assumption.
  pose proof (N.div_mod s 60). lia.
Qed.

End TimeUtilsFacts.


(** * Facts about texts *)

Section StringFacts.

Lemma append_cons (c : ascii) (s t : string) :
  String c s +:+ t = String c (s +:+ t).
Proof. reflexivity. Qed.

Lemma append_empty_r (s : string) : s +:+ "" = s.
Proof.
  induction s as [|c s IH]; [reflexivity|]. now rewrite append_cons, IH.
Qed.

Lemma prefix_empty (s : string) : String.prefix "" s = true.
Proof. now destruct s. Qed.

Lemma prefix_head_differs (a b : ascii) (p s : string) :
  a <> b -> String.prefix (String a p) (String b s) = false.
Proof. intros Hab. simpl. now destruct (ascii_dec a b). Qed.

Lemma has_char_head (c a : ascii) (s : string) :
  has_char c (String a s) = false -> a <> c /\ has_char c s = false.
Proof.
  simpl. intros H. apply orb_false_elim in H as [Ha Hs].
  split; [now apply Ascii.eqb_neq | assumption].
Qed.

(** Text without the first character of the needle cannot start a match. *)
Lemma contains_skip (a : ascii) (p s t : string) :
  has_char a s = false ->
  contains (String a p) (s +:+ t) = contains (String a p) t.
Proof.
  induction s as [|b s IH]; intros Hs; [reflexivity|].
  apply has_char_head in Hs as [Hba Hs].
  change (String b s +:+ t) with (String b (s +:+ t)).
  cbn [contains]. rewrite prefix_head_differs by congruence.
  now rewrite IH.
Qed.

(** A match cannot run across a character that is not in the needle. *)
Lemma prefix_app_sep (pat s t : string) (c : ascii) :
  has_char c pat = false ->
  String.prefix pat (s +:+ String c t) = String.prefix pat s.
Proof.
  revert pat. induction s as [|b s IH]; intros [|p0 pr] Hc.
  - reflexivity.
  - apply has_char_head in Hc as [Hp _].
    simpl. now destruct (ascii_dec p0 c).
  - reflexivity.
  - apply has_char_head in Hc as [_ Hpr].
    simpl. destruct (ascii_dec p0 b); [now apply IH | reflexivity].
Qed.

Lemma contains_app_sep (a : ascii) (p s t : string) (c : ascii) :
  has_char c (String a p) = false ->
  contains (String a p) (s +:+ String c t)
  = contains (String a p) s || contains (String a p) t.
Proof.
  intros Hc. induction s as [|b s IH].
  - change ("" +:+ String c t) with (String c t). cbn [contains].
    apply has_char_head in Hc as [Hac _].
    rewrite prefix_head_differs by assumption. reflexivity.
  - change (String b s +:+ String c t) with (String b (s +:+ String c t)).
    cbn [contains].
    change (String b (s +:+ String c t)) with (String b s +:+ String c t).
    rewrite prefix_app_sep by assumption. rewrite IH. apply orb_assoc.
Qed.

End StringFacts.

(** * Facts about prompts.py *)

Section PromptFacts.
Import Prompts.

Lemma three_templates_parse :
  parses_to_two_slots BASE_OVERVIEW = true
  /\ parses_to_two_slots BASE_DETAIL_DIALOGUE = true
  /\ parses_to_two_slots BASE_DETAIL_PRESENTATION = true.
Proof. repeat split; vm_compute; reflexivity. Qed.

Lemma three_templates_differ :
  BASE_OVERVIEW <> BASE_DETAIL_DIALOGUE
  /\ BASE_OVERVIEW <> BASE_DETAIL_PRESENTATION
  /\ BASE_DETAIL_DIALOGUE <> BASE_DETAIL_PRESENTATION.
Proof.
  repeat split; intros H;
    apply (f_equal String.length) in H; vm_compute in H; discriminate H.
Qed.

Lemma slot_free_in (pat_head : ascii) (pat_tail pre r mid t : string) :
  pat_head = "{"%char ->
  has_char (ascii_of_nat 10) (String pat_head pat_tail) = false ->
  has_char "{" pre = false -> has_char "{" mid = false ->
  contains (String pat_head pat_tail) r = false ->
  contains (String pat_head pat_tail) t = false ->
  contains (String pat_head pat_tail)
    (pre +:+ r +:+ String (ascii_of_nat 10) mid +:+ t +:+ "") = false.
Proof.
  intros -> Hnl Hpre Hmid Hr Ht.
  rewrite append_empty_r.
  change (String (ascii_of_nat 10) mid +:+ t)
    with (String (ascii_of_nat 10) (mid +:+ t)).
  rewrite contains_skip by assumption.
  rewrite contains_app_sep by assumption.
  rewrite Hr, contains_skip by assumption.
  exact Ht.
Qed.

Lemma resolved_iff (s : string) :
  resolved s = true <-> contains role_slot s = false /\ contains transcript_slot s = false.
Proof.
  unfold resolved. rewrite andb_true_iff, !negb_true_iff. reflexivity.
Qed.

(** Formatting a template of the two-slot shape with texts that hold no
    placeholder gives a text that holds none. *)
Lemma format_two_slots (template r t : string) :
  parses_to_two_slots template = true ->
  resolved r = true -> resolved t = true ->
  exists out,
    format template [("role", r); ("transcript", t)] = ok out
    /\ resolved out = true.
Proof.
  unfold parses_to_two_slots, format. intros Hshape Hr Ht.
  destruct (parse_format template) as [e|ps]; [discriminate|].
  destruct ps as [|[pre|] [|[|f1] [|[[|c mid]|] [|[|f2] [|]]]]]; try discriminate.
  cbn [two_slot_shape] in Hshape. split_andb. reflect_tests.
  apply resolved_iff in Hr as [Hr1 Hr2]. apply resolved_iff in Ht as [Ht1 Ht2].
  eexists. split; [reflexivity|].
  apply resolved_iff. split; apply slot_free_in; auto.
Qed.

Lemma roleFor_cases (roles : gmap string string) (general : string)
    (topic : option string) :
  roles !! "general" = Some general ->
  roleFor roles topic = ok general
  \/ exists k v, topic = Some k /\ roles !! k = Some v /\ roleFor roles topic = ok v.
Proof.
  intros Hg. unfold roleFor, getitem. rewrite Hg. cbn [bind ok].
  destruct topic as [k|]; [|now left].
  cbn [dict_get]. destruct (roles !! k) as [v|] eqn:Hk; [right; eauto | now left].
Qed.

Lemma create_prompt_unfold (roles : gmap string string)
    (topic format_type : option string) (transcript prompt_type : string) :
  create_prompt roles topic format_type transcript prompt_type
  = do role <- roleFor roles topic;
    format (templateFor prompt_type format_type)
      [("role", role); ("transcript", transcript)].
Proof.
  unfold create_prompt, templateFor.
  destruct (roleFor roles topic) as [e|role]; [reflexivity|].
  cbn [bind]. destruct (String.eqb prompt_type "overview"); [reflexivity|].
  destruct (is_presentation format_type); reflexivity.
Qed.

Lemma templateFor_two_slots (prompt_type : string) (format_type : option string) :
  parses_to_two_slots (templateFor prompt_type format_type) = true.
Proof.
  destruct three_templates_parse as (Ho & Hd & Hp). unfold templateFor.
  destruct (String.eqb prompt_type "overview"); [assumption|].
  destruct (is_presentation format_type); assumption.
Qed.

End PromptFacts.

(** * The prompt generator *)

(** C1. Template selection: for every format type other than "presentation"
    (absent and unknown values included) the detail prompt uses the dialogue
    template; for "presentation" it uses the presentation template; the
    overview prompt uses the overview template whatever the format type.
    [create_prompt] formats exactly the template so selected, and the three
    templates are three different texts. *)
Theorem C1_template_selection :
  (forall format_type : option string,
      format_type <> Some "presentation" ->
      Prompts.templateFor "detail" format_type = Prompts.BASE_DETAIL_DIALOGUE)
  /\ Prompts.templateFor "detail" (Some "presentation")
     = Prompts.BASE_DETAIL_PRESENTATION
  /\ (forall format_type : option string,
        Prompts.templateFor "overview" format_type = Prompts.BASE_OVERVIEW)
  /\ (forall roles topic format_type transcript prompt_type,
        Prompts.create_prompt roles topic format_type transcript prompt_type
        = do role <- Prompts.roleFor roles topic;
          Prompts.format (Prompts.templateFor prompt_type format_type)
            [("role", role); ("transcript", transcript)])
  /\ Prompts.BASE_DETAIL_DIALOGUE <> Prompts.BASE_DETAIL_PRESENTATION.
Proof.
  split; [|split; [|split; [|split]]].
  - intros format_type Hne. unfold Prompts.templateFor.
    replace (String.eqb "detail" "overview") with false by reflexivity.
    destruct format_type as [f|]; [|reflexivity].
    unfold Prompts.is_presentation.
    destruct (String.eqb_spec f "presentation") as [->|_]; [congruence | reflexivity].
  - reflexivity.
  - intros format_type. reflexivity.
  - apply create_prompt_unfold.
  - apply three_templates_differ.
Qed.

Lemma C1_template_selection_witness :
  Some "dialogue" <> Some "presentation"
  /\ Prompts.templateFor "detail" (Some "dialogue") = Prompts.BASE_DETAIL_DIALOGUE
  /\ Prompts.templateFor "detail" None = Prompts.BASE_DETAIL_DIALOGUE.
Proof.
  split; [discriminate|].
  split; apply (proj1 C1_template_selection); discriminate.
Defined.

(** C7. The role lookup: with "general" registered, [roleFor] returns the
    registered text of a registered topic and the text of "general" for an
    unknown or absent topic; it never raises, and it is a function of the
    registry and the topic alone. *)
Theorem C7_roleFor_lookup (roles : gmap string string) (general : string) :
  roles !! "general" = Some general ->
  (forall key text, roles !! key = Some text ->
      Prompts.roleFor roles (Some key) = ok text)
  /\ (forall key, roles !! key = None ->
        Prompts.roleFor roles (Some key) = ok general)
  /\ Prompts.roleFor roles None = ok general
  /\ (forall topic, exists text, Prompts.roleFor roles topic = ok text).
Proof.
  intros Hg. unfold Prompts.roleFor, Prompts.getitem. rewrite Hg. cbn [bind ok].
  repeat split.
  - intros key text Hk. cbn [Prompts.dict_get]. now rewrite Hk.
  - intros key Hk. cbn [Prompts.dict_get]. now rewrite Hk.
  - intros topic. eauto.
Qed.

Lemma C7_roleFor_lookup_witness :
  Prompts.roleFor Prompts.documented_roles (Some "lecture") = ok Prompts.general_role
  /\ Prompts.roleFor Prompts.documented_roles None = ok Prompts.general_role.
Proof.
  assert (Prompts.documented_roles !! "general" = Some Prompts.general_role) as Hg
    by reflexivity.
  destruct (C7_roleFor_lookup _ _ Hg) as (_ & Hunknown & Habsent & _).
  split; [apply Hunknown; reflexivity | exact Habsent].
Defined.

Lemma documented_roles_resolved (key text : string) :
  Prompts.documented_roles !! key = Some text -> Prompts.resolved text = true.
Proof.
  unfold Prompts.documented_roles. intros Hk.
  apply elem_of_list_to_map_2 in Hk.
  repeat (apply elem_of_cons in Hk as [Hk|Hk];
          [injection Hk as -> ->; vm_compute; reflexivity|]).
  now apply elem_of_nil in Hk.
Qed.

(** C2, in the form that holds.  With "general" registered and role texts that hold no
    placeholder, [create_prompt] returns a prompt for every topic, format
    type and prompt type, and when the transcript holds neither "{role}"
    nor "{transcript}" the prompt holds neither. *)
Theorem C2_placeholders_resolved (roles : gmap string string) (general : string)
    (topic format_type : option string) (transcript prompt_type : string) :
  roles !! "general" = Some general ->
  (forall key text, roles !! key = Some text -> Prompts.resolved text = true) ->
  contains "{role}" transcript = false ->
  contains "{transcript}" transcript = false ->
  exists prompt,
    Prompts.create_prompt roles topic format_type transcript prompt_type = ok prompt
    /\ contains "{role}" prompt = false
    /\ contains "{transcript}" prompt = false.
Proof.
  intros Hg Hroles Ht1 Ht2.
  assert (exists role, Prompts.roleFor roles topic = ok role
                       /\ Prompts.resolved role = true) as (role & Hrole & Hres).
  { destruct (roleFor_cases roles general topic Hg) as [H|(k & v & _ & Hk & H)];
      eauto. }
  rewrite create_prompt_unfold, Hrole. cbn [bind].
  destruct (format_two_slots (Prompts.templateFor prompt_type format_type)
              role transcript) as (prompt & Hfmt & Hout).
  - apply templateFor_two_slots.
  - exact Hres.
  - apply resolved_iff. now split.
  - exists prompt. apply resolved_iff in Hout. tauto.
Qed.

Lemma C2_placeholders_resolved_witness :
  exists prompt,
    Prompts.create_prompt Prompts.documented_roles (Some "ai")
      (Some "presentation") "0:05 hello" "detail" = ok prompt
    /\ contains "{role}" prompt = false
    /\ contains "{transcript}" prompt = false.
Proof.
  apply (C2_placeholders_resolved _ Prompts.general_role).
  - reflexivity.
  - exact documented_roles_resolved.
  - reflexivity.
  - reflexivity.
Defined.

(** C2 as the specification words it fails: [str.format] does not look into the values it
    inserts, so a transcript that holds the placeholders carries them into
    the prompt. *)
Lemma C2_counterexample :
  exists prompt,
    Prompts.create_prompt Prompts.documented_roles (Some "ai") None
      "say {role} and {transcript}" "overview" = ok prompt
    /\ contains "{role}" prompt = true
    /\ contains "{transcript}" prompt = true.
Proof. eexists. repeat split; vm_compute; reflexivity. Qed.

(** * The transcript cache *)

Section CacheFacts.
Import Cache.

Lemma get_put_live (cache : gmap string entry) (now later : Z)
    (contentId text : string) :
  (later <= now + TTL)%Z ->
  get (put cache now contentId text) later contentId
  = (Some text, put cache now contentId text).
Proof.
  intros Hlive. unfold get, put. rewrite lookup_insert_eq. cbn [expiresAt rawText].
  now rewrite (proj2 (Z.leb_le _ _) Hlive).
Qed.

Lemma get_expired (cache : gmap string entry) (later : Z) (contentId : string)
    (e : entry) :
  cache !! contentId = Some e -> (expiresAt e < later)%Z ->
  get cache later contentId = (None, delete contentId cache).
Proof.
  intros He Hlate. unfold get. rewrite He.
  now rewrite (proj2 (Z.leb_gt _ _) Hlate).
Qed.

Lemma get_absent (cache : gmap string entry) (now : Z) (contentId : string) :
  cache !! contentId = None -> get cache now contentId = (None, cache).
Proof. intros He. unfold get. now rewrite He. Qed.

(** A read finds nothing exactly when nothing is stored or what is stored
    has expired. *)
Lemma cache_miss (cache : gmap string entry) (now : Z) (contentId : string) :
  (cache !! contentId = None
   \/ exists e, cache !! contentId = Some e /\ (expiresAt e < now)%Z)
  <-> (get cache now contentId).1 = None.
Proof.
  unfold get. destruct (cache !! contentId) as [e|] eqn:He.
  - destruct (Z.leb_spec now (expiresAt e)) as [Hlive|Hlate]; cbn [fst].
    + split; [|discriminate]. intros [H|(e' & H & Hlate)]; [discriminate|].
      injection H as <-. lia.
    + split; [reflexivity|]. intros _. right. eauto.
  - cbn [fst]. split; [reflexivity | now left].
Qed.

Lemma put_put (cache : gmap string entry) (t1 t2 : Z) (contentId x y : string) :
  put (put cache t1 contentId x) t2 contentId y = put cache t2 contentId y.
Proof. unfold put. apply insert_insert_eq. Qed.

End CacheFacts.

(** C3. A [get] right after [put(contentId, text)] (at any time up to the
    expiry) returns [text]; the stored entry has
    [expiresAt = createdAt + TTL], with the TTL fixed at 24 hours; and a
    [get] at any [later > expiresAt] finds nothing although the entry is
    still stored, no sweep having run. *)
Theorem C3_cache_ttl (cache : gmap string Cache.entry) (now : Z)
    (contentId text : string) :
  (Cache.get (Cache.put cache now contentId text) now contentId).1 = Some text
  /\ (forall later, (later <= now + Cache.TTL)%Z ->
        (Cache.get (Cache.put cache now contentId text) later contentId).1
        = Some text)
  /\ (exists e,
        Cache.put cache now contentId text !! contentId = Some e
        /\ Cache.rawText e = text
        /\ Cache.createdAt e = now
        /\ Cache.expiresAt e = (Cache.createdAt e + Cache.TTL)%Z)
  /\ Cache.TTL = (24 * 3600)%Z
  /\ (forall (stored : gmap string Cache.entry) (e : Cache.entry) (later : Z),
        stored !! contentId = Some e ->
        (Cache.expiresAt e < later)%Z ->
        (Cache.get stored later contentId).1 = None).
Proof.
  repeat split.
  - rewrite get_put_live; [reflexivity | unfold Cache.TTL; lia].
  - intros later Hlive. now rewrite get_put_live.
  - eexists. split; [apply lookup_insert_eq | repeat split].
  - intros stored e later He Hlate. now rewrite (get_expired _ _ _ _ He Hlate).
Qed.

Lemma C3_cache_ttl_witness :
  (Cache.get (Cache.put ∅ 1000 "dQw4w9WgXcQ" "0:05 hello") 87400 "dQw4w9WgXcQ").1
  = Some "0:05 hello"
  /\ (Cache.get (Cache.put ∅ 1000 "dQw4w9WgXcQ" "0:05 hello") 87401 "dQw4w9WgXcQ").1
     = None.
Proof.
  destruct (C3_cache_ttl ∅ 1000 "dQw4w9WgXcQ" "0:05 hello")
    as (_ & Hlive & _ & _ & Hexpired).
  split.
  - apply Hlive. vm_compute. discriminate.
  - apply (Hexpired _ (Cache.Entry "0:05 hello" 1000 (1000 + Cache.TTL))).
    + reflexivity.
    + vm_compute. reflexivity.
Defined.

(** C8. The last [put] wins: after [put(contentId, x)] and
    [put(contentId, y)] the cache is what [put(contentId, y)] alone would
    have left, and a [get] before the expiry of the second entry returns
    [y]. *)
Theorem C8_last_put_wins (cache : gmap string Cache.entry) (t1 t2 t3 : Z)
    (contentId x y : string) :
  (t3 <= t2 + Cache.TTL)%Z ->
  (Cache.get (Cache.put (Cache.put cache t1 contentId x) t2 contentId y)
     t3 contentId).1 = Some y
  /\ Cache.put (Cache.put cache t1 contentId x) t2 contentId y
     = Cache.put cache t2 contentId y.
Proof.
  intros Hlive. split; [|apply put_put].
  now rewrite get_put_live.
Qed.

Lemma C8_last_put_wins_witness :
  (Cache.get (Cache.put (Cache.put ∅ 10 "id" "X") 20 "id" "Y") 20 "id").1
  = Some "Y".
Proof.
  apply (C8_last_put_wins ∅ 10 20 20 "id" "X" "Y"). vm_compute. discriminate.
Defined.

(** * The custom summarize endpoint *)

Section EndpointFacts.
Import Endpoints.

Lemma truthy_or_else (s : option string) :
  truthy s = true -> exists c r, or_else s "" = String c r.
Proof. destruct s as [[|c r]|]; try discriminate. intros _. simpl. eauto. Qed.

(** Whatever the lookup returns normally is a transcript with text in it. *)
Lemma get_transcript_not_empty (cache : gmap string Cache.entry) (now : Z)
    (request : CustomSummarizeRequest) :
  (get_transcript cache now request).1 <> ok "".
Proof.
  unfold get_transcript.
  destruct (truthy (transcript request)) eqn:Hreq.
  - destruct (truthy_or_else _ Hreq) as (c & r & ->). discriminate.
  - destruct (Cache.get cache now (video_id request)) as [cached cache'].
    destruct (truthy cached) eqn:Hc; cbn [negb fst].
    + destruct (truthy_or_else _ Hc) as (c & r & ->). discriminate.
    + discriminate.
Qed.

End EndpointFacts.

(** C4, in the form that holds.  When the request carries no transcript of
    its own (none, or an empty one) and the cache has no live entry for the
    video id, be it that nothing was stored or that the entry has expired,
    the lookup raises the 404 [transcript_not_found]; no lookup ever
    returns an empty transcript; and a request that carries a transcript
    with text in it is served with that transcript whatever the cache
    holds, the cache being left as it was. *)
Theorem C4_transcript_not_found (cache : gmap string Cache.entry) (now : Z)
    (request : Endpoints.CustomSummarizeRequest) :
  Endpoints.truthy (Endpoints.transcript request) = false ->
  (cache !! Endpoints.video_id request = None
   \/ exists e, cache !! Endpoints.video_id request = Some e
                /\ (Cache.expiresAt e < now)%Z) ->
  (Endpoints.get_transcript cache now request).1
  = raise Endpoints.transcript_not_found
  /\ Endpoints.status_code Endpoints.transcript_not_found = 404%Z
  /\ Endpoints.error Endpoints.transcript_not_found = "transcript_not_found"
  /\ (forall cache' now' request',
        (Endpoints.get_transcript cache' now' request').1 <> ok "")
  /\ (forall cache' now' request' text,
        Endpoints.transcript request' = Some text -> text <> "" ->
        Endpoints.get_transcript cache' now' request' = (ok text, cache')).
Proof.
  intros Hreq Hmiss.
  split; [|split; [reflexivity|split; [reflexivity|split]]].
  - apply cache_miss in Hmiss.
    unfold Endpoints.get_transcript. rewrite Hreq.
    destruct (Cache.get cache now (Endpoints.video_id request)) as [cached cache'].
    cbn [fst] in Hmiss. subst cached. reflexivity.
  - apply get_transcript_not_empty.
  - intros cache' now' request' text Htext Hne.
    unfold Endpoints.get_transcript. rewrite Htext.
    destruct text as [|c r]; [congruence | reflexivity].
Qed.

Lemma C4_transcript_not_found_witness :
  (Endpoints.get_transcript (Cache.put ∅ 0 "abc" "0:05 hello") 86401
     {| Endpoints.video_id := "abc";
        Endpoints.transcript := None;
        Endpoints.custom_overview_prompt := Some "overview prompt";
        Endpoints.custom_detail_prompt := Some "detail prompt";
        Endpoints.ai_provider := "gemini";
        Endpoints.model := None |}).1
  = raise Endpoints.transcript_not_found.
Proof.
  apply C4_transcript_not_found; [reflexivity|].
  right. exists (Cache.Entry "0:05 hello" 0 (0 + Cache.TTL)).
  split; [reflexivity | vm_compute; reflexivity].
Defined.

(** C4 as the specification words it fails: nothing is cached for the video id, yet a request
    that brings its own transcript gets past the lookup with it. *)
Lemma C4_counterexample :
  (Cache.get ∅ 0 "abc").1 = None
  /\ (Endpoints.get_transcript ∅ 0
        {| Endpoints.video_id := "abc";
           Endpoints.transcript := Some "0:05 hello";
           Endpoints.custom_overview_prompt := None;
           Endpoints.custom_detail_prompt := None;
           Endpoints.ai_provider := "gemini";
           Endpoints.model := None |}).1
     = ok "0:05 hello".
Proof. split; reflexivity. Qed.

(** * The API client and the transcript panel *)

Section ApiFacts.
Import Api.

Lemma request_ok {A : Type} (notOk failed : string) (outcome : FetchOutcome A)
    (data : A) :
  request notOk failed outcome = ok data <-> outcome = Ok data.
Proof.
  split; [|now intros ->].
  destruct outcome as [[m|]|m|d]; cbn; try discriminate.
  intros H. injection H as ->. reflexivity.
Qed.

Lemma request_raises {A : Type} (notOk failed : string) (outcome : FetchOutcome A) :
  (forall data, outcome <> Ok data) ->
  exists m, request notOk failed outcome = raise (JsError m).
Proof.
  destruct outcome as [[m|]|m|d]; cbn; intros H; eauto.
  now destruct (H d).
Qed.

Lemma forEach_set_lookup (ts : list string) (m : gmap nat string) (k i : nat) :
  foldl (fun m it => <[it.1 := it.2]> m) m (imap (fun j t => (k + j, t)) ts) !! i
  = if decide (k <= i) then
      match ts !! (i - k) with Some t => Some t | None => m !! i end
    else m !! i.
Proof.
  revert m k. induction ts as [|t ts IH]; intros m k.
  - cbn. now destruct (decide (k <= i)).
  - cbn [imap foldl fst snd].
    rewrite (imap_ext _ (fun j t => (S k + j, t))) by (intros; cbn; f_equal; lia).
    rewrite IH. rewrite Nat.add_0_r.
    destruct (decide (S k <= i)) as [Hlt|Hge].
    + rewrite decide_True by lia.
      replace (i - k) with (S (i - S k)) by lia. cbn [lookup list_lookup].
      rewrite lookup_insert_ne by lia. reflexivity.
    + destruct (decide (k <= i)) as [Hle|Hgt].
      * assert (i = k) as -> by lia. rewrite Nat.sub_diag. cbn.
        apply lookup_insert_eq.
      * rewrite lookup_insert_ne by lia. reflexivity.
Qed.

Lemma newTranslations_lookup (ts : list string) (i : nat) :
  newTranslations ts !! i = ts !! i.
Proof.
  unfold newTranslations.
  rewrite (imap_ext _ (fun j t => (0 + j, t))) by reflexivity.
  rewrite forEach_set_lookup, decide_True by lia.
  rewrite Nat.sub_0_r, lookup_empty. now destruct (ts !! i).
Qed.

End ApiFacts.

(** C5, in the form that holds.  [translateBatch] hands back the body of an ok response
    as it came: the translations it returns are the response's, in the
    response's order and number, whatever the number of segments sent; it
    returns normally for an ok response only, and throws an [Error] for
    anything else: for a response that is not ok, with the response's
    [detail.message] when that has text in it and with the fixed text of
    the function otherwise; an [Error] thrown inside the [try] block is
    thrown on with the message it has; any other thrown value becomes an
    [Error] with the second fixed text.  The panel then files translation
    [i] under segment index [i]. *)
Theorem C5_translateBatch_passes_response (params : Api.TranslateBatchParams) :
  (forall response, Api.translateBatch params (Api.Ok response) = ok response)
  /\ (forall outcome response,
        Api.translateBatch params outcome = ok response ->
        outcome = Api.Ok response)
  /\ (forall outcome,
        (forall response, outcome <> Api.Ok response) ->
        exists message,
          Api.translateBatch params outcome = raise (Api.JsError message))
  /\ (forall c s,
        Api.translateBatch params (Api.NotOk (Some (String c s)))
        = raise (Api.JsError (String c s)))
  /\ Api.translateBatch params (Api.NotOk None)
     = raise (Api.JsError "전체 번역 중 오류가 발생했습니다")
  /\ Api.translateBatch params (Api.NotOk (Some ""))
     = raise (Api.JsError "전체 번역 중 오류가 발생했습니다")
  /\ (forall message,
        Api.translateBatch params (Api.Rejected (Api.JsError message))
        = raise (Api.JsError message))
  /\ Api.translateBatch params (Api.Rejected Api.NotAnError)
     = raise (Api.JsError "전체 번역 요청에 실패했습니다")
  /\ (forall (ts : list string) (i : nat), Api.newTranslations ts !! i = ts !! i).
Proof.
  split; [reflexivity|]. split; [|split].
  - intros outcome response. apply request_ok.
  - intros outcome. apply request_raises.
  - repeat split. apply newTranslations_lookup.
Qed.

Lemma C5_translateBatch_passes_response_witness :
  Api.translateBatch
    {| Api.tb_video_id := "abc"; Api.segments := ["Hello"; "World"];
       Api.tb_ai_provider := "gemini"; Api.tb_model := None |}
    (Api.Ok {| Api.translations := ["annyeonghaseyo"; "woldeu"] |})
  = ok {| Api.translations := ["annyeonghaseyo"; "woldeu"] |}
  /\ exists message,
       Api.translateBatch
         {| Api.tb_video_id := "abc"; Api.segments := ["Hello"; "World"];
            Api.tb_ai_provider := "gemini"; Api.tb_model := None |}
         (Api.Rejected (Api.JsError "Failed to fetch"))
       = raise (Api.JsError message).
Proof.
  destruct (C5_translateBatch_passes_response
              {| Api.tb_video_id := "abc"; Api.segments := ["Hello"; "World"];
                 Api.tb_ai_provider := "gemini"; Api.tb_model := None |})
    as (Hok & _ & Hraise & _).
  split; [apply Hok|].
  apply Hraise. intros response. discriminate.
Defined.

(** C5 as the specification words it fails: two segments are sent, the response is ok and
    carries one translation, and the call returns it as a success; the
    panel then shows it under the first segment. *)
Lemma C5_counterexample :
  let params :=
    {| Api.tb_video_id := "abc"; Api.segments := ["Hello"; "World"];
       Api.tb_ai_provider := "gemini"; Api.tb_model := None |} in
  let response := {| Api.translations := ["annyeonghaseyo"] |} in
  Api.translateBatch params (Api.Ok response) = ok response
  /\ length (Api.translations response) <> length (Api.segments params)
  /\ Api.newTranslations (Api.translations response) !! 0 = Some "annyeonghaseyo"
  /\ Api.newTranslations (Api.translations response) !! 1 = None.
Proof. repeat split; try reflexivity. cbn. discriminate. Qed.

(** * The chat panel *)

(** Blank input, or a request in flight: [handleSubmit] returns at once and
    sends nothing. *)
Lemma handleSubmit_guard (props : ChatPanel.Props) (st : ChatPanel.State)
    (now : N) :
  ChatPanel.blank (ChatPanel.input st) = true \/ ChatPanel.isLoading st = true ->
  ChatPanel.handleSubmit_send props st now = None.
Proof.
  intros Hguard. unfold ChatPanel.handleSubmit_send.
  destruct Hguard as [-> | ->]; [reflexivity|].
  now rewrite orb_true_r.
Qed.

(** C9. A submission that passes the guard of [handleSubmit] (some text
    that is not blank, no request in flight) sends the history as it stood
    before the submission, without the new user turn, and the new text in
    the message field; after a successful reply the stored history is the
    previous history followed by the user turn and then the assistant turn,
    whatever else happened to the component while the request was out. *)
Theorem C9_chat_history (props : ChatPanel.Props) (st : ChatPanel.State) (now : N) :
  ChatPanel.blank (ChatPanel.input st) = false ->
  ChatPanel.isLoading st = false ->
  exists pending,
    ChatPanel.handleSubmit_send props st now = Some pending
    /\ Api.conversation_history (ChatPanel.sent pending)
       = ChatPanel.conversationHistory st
    /\ Api.message (ChatPanel.sent pending) = ChatPanel.input st
    /\ ChatPanel.conversationHistory (ChatPanel.state_sent pending)
       = ChatPanel.conversationHistory st ++ [("user", ChatPanel.input st)]
    /\ (forall (st' : ChatPanel.State) (response : Api.ChatResponse) (later : N),
          ChatPanel.conversationHistory
            (ChatPanel.handleSubmit_settle st' (ChatPanel.newHistory pending)
               (ok response) later).1
          = ChatPanel.conversationHistory st
              ++ [("user", ChatPanel.input st);
                  ("assistant", Api.reply response)])
    /\ (forall (response : Api.ChatResponse) (later : N),
          exists st'' toast,
            ChatPanel.handleSubmit props st now (Api.Ok response) later
            = Some (ChatPanel.sent pending, (st'', toast))
            /\ ChatPanel.conversationHistory st''
               = ChatPanel.conversationHistory st
                   ++ [("user", ChatPanel.input st);
                       ("assistant", Api.reply response)]).
Proof.
  intros Hblank Hloading.
  unfold ChatPanel.handleSubmit, ChatPanel.handleSubmit_send.
  rewrite Hblank, Hloading. cbn [orb].
  eexists. split; [reflexivity|]. cbn.
  repeat split.
  - intros st' response later. now rewrite <- app_assoc.
  - intros response later. eexists. eexists. split; [reflexivity|].
    cbn. now rewrite <- app_assoc.
Qed.

Lemma C9_chat_history_witness :
  exists pending,
    ChatPanel.handleSubmit_send
      {| ChatPanel.videoId := "abc"; ChatPanel.aiProvider := "gemini";
         ChatPanel.model := None |}
      {| ChatPanel.messages := []; ChatPanel.input := "why?";
         ChatPanel.isLoading := false;
         ChatPanel.conversationHistory := [("user", "what?"); ("assistant", "this.")] |}
      1700000000000
    = Some pending
    /\ Api.conversation_history (ChatPanel.sent pending)
       = [("user", "what?"); ("assistant", "this.")]
    /\ Api.message (ChatPanel.sent pending) = "why?".
Proof.
  destruct (C9_chat_history
              {| ChatPanel.videoId := "abc"; ChatPanel.aiProvider := "gemini";
                 ChatPanel.model := None |}
              {| ChatPanel.messages := []; ChatPanel.input := "why?";
                 ChatPanel.isLoading := false;
                 ChatPanel.conversationHistory :=
                   [("user", "what?"); ("assistant", "this.")] |}
              1700000000000 eq_refl eq_refl)
    as (pending & Hsend & Hhistory & Hmessage & _).
  exists pending. repeat split; assumption.
Defined.

(** * Timestamps *)

(** C10, in the form that holds.  On the safe integers, [0 <= s <= 2^53 - 1], turning a
    number of seconds into an "m:ss" timestamp and back gives the number
    again. *)
Theorem C10_roundtrip_safe_integers (s : N) :
  (s <= TimeUtils.MAX_SAFE_INTEGER)%N ->
  TimeUtils.timestampToSeconds (TimeUtils.secondsToTimestamp s) = s.
Proof.
  intros Hs. apply roundtrip_below. unfold TimeUtils.MAX_SAFE_INTEGER in Hs.
  apply N.Div0.div_lt_upper_bound. lia.
Qed.

Lemma C10_roundtrip_safe_integers_witness :
  (645 <= TimeUtils.MAX_SAFE_INTEGER)%N
  /\ TimeUtils.timestampToSeconds (TimeUtils.secondsToTimestamp 645) = 645%N.
Proof.
  assert (645 <= TimeUtils.MAX_SAFE_INTEGER)%N as H by (vm_compute; discriminate).
  split; [exact H | exact (C10_roundtrip_safe_integers 645 H)].
Defined.

(** C10 as worded fails: [6e22] is a non-negative integer and a JS
    number; its minutes are [1e21], which a template literal prints as
    "1e+21", and the regular expression does not match "1e+21:00". *)
Lemma C10_counterexample :
  TimeUtils.secondsToTimestamp (6 * 10 ^ 22) = "1e+21:00"
  /\ TimeUtils.timestampToSeconds (TimeUtils.secondsToTimestamp (6 * 10 ^ 22)) = 0%N
  /\ TimeUtils.timestampToSeconds (TimeUtils.secondsToTimestamp (6 * 10 ^ 22))
     <> (6 * 10 ^ 22)%N.
Proof.
  split; [vm_compute; reflexivity|].
  split; [vm_compute; reflexivity|].
  vm_compute. discriminate.
Qed.

(** * More on timestamps *)

Section TimestampFacts.
Import TimeUtils.

Lemma span_digits_spec (s ds rest : string) :
  span_digits s = (ds, rest) -> s = ds +:+ rest /\ all_digits ds = true.
Proof.
  revert ds rest. induction s as [|c s IH]; intros ds rest H; cbn in H.
  - injection H as <- <-. now split.
  - destruct (is_digit c) eqn:Hc.
    + destruct (span_digits s) as [ds' tl]. injection H as <- <-.
      destruct (IH _ _ eq_refl) as [-> Hd]. split; [reflexivity|].
      cbn. now rewrite Hc.
    + injection H as <- <-. now split.
Qed.

Lemma digit_value_char (c : ascii) :
  is_digit c = true -> digit_char (digit_value c) = c /\ (digit_value c < 10)%N.
Proof.
  unfold is_digit, digit_char, digit_value. intros H.
  apply andb_prop in H as [H1 H2]. apply N.leb_le in H1, H2.
  split; [|lia].
  replace (48 + (N_of_ascii c - 48))%N with (N_of_ascii c) by lia.
  apply ascii_N_embedding.
Qed.

Lemma decimal_fuel_irrel (f1 f2 : nat) (n : N) :
  (n < 2 ^ N.of_nat f1)%N -> (n < 2 ^ N.of_nat f2)%N ->
  decimal_fuel f1 n = decimal_fuel f2 n.
Proof.
  revert f2 n. induction f1 as [|f1 IH]; intros f2 n H1 H2.
  - assert (n = 0%N) as -> by (cbn in H1; lia). now destruct f2.
  - destruct f2 as [|f2].
    + assert (n = 0%N) as -> by (cbn in H2; lia). reflexivity.
    + cbn [decimal_fuel]. destruct (N.ltb_spec n 10); [reflexivity|].
      f_equal. rewrite Nat2N.inj_succ, N.pow_succ_r' in H1, H2.
      apply IH; apply N.Div0.div_lt_upper_bound; lia.
Qed.

Lemma decimal_small (n : N) : (n < 10)%N -> decimal n = String (digit_char n) "".
Proof.
  intros Hn. unfold decimal. destruct (N.to_nat (N.size n)) as [|f] eqn:Hf.
  - assert (n = 0%N) as ->; [|reflexivity].
    destruct n; [reflexivity|]. cbn in Hf. lia.
  - cbn [decimal_fuel]. now rewrite (proj2 (N.ltb_lt _ _) Hn).
Qed.

Lemma decimal_step (n : N) :
  (10 <= n)%N ->
  decimal n = decimal (n / 10) +:+ String (digit_char (n mod 10)) "".
Proof.
  intros Hn. unfold decimal.
  pose proof (N.size_gt n) as Hsize.
  destruct (N.to_nat (N.size n)) as [|f] eqn:Hf.
  - rewrite <- (N2Nat.id (N.size n)), Hf in Hsize. cbn in Hsize. lia.
  - cbn [decimal_fuel]. rewrite (proj2 (N.ltb_ge _ _) Hn). f_equal.
    rewrite <- (N2Nat.id (N.size n)), Hf, Nat2N.inj_succ, N.pow_succ_r' in Hsize.
    apply decimal_fuel_irrel.
    + apply N.Div0.div_lt_upper_bound. lia.
    + rewrite N2Nat.id. apply N.size_gt.
Qed.

Lemma parseInt_from_ge (s : string) (acc : N) : (acc <= parseInt_from acc s)%N.
Proof.
  revert acc. induction s as [|c s IH]; intros acc; cbn; [lia|].
  destruct (is_digit c); [|lia]. specialize (IH (acc * 10 + digit_value c)%N). lia.
Qed.

Lemma string_snoc (s : string) :
  s <> "" -> exists s' c, s = s' +:+ String c "".
Proof.
  induction s as [|a s IH]; [congruence|]. intros _.
  destruct s as [|b s].
  - exists "", a. reflexivity.
  - destruct IH as (s' & c & E); [discriminate|].
    exists (String a s'), c. now rewrite append_cons, <- E.
Qed.

Lemma length_append (s t : string) :
  String.length (s +:+ t) = String.length s + String.length t.
Proof.
  induction s as [|c s IH]; [reflexivity|]. rewrite append_cons. cbn. now rewrite IH.
Qed.

(** Digits that start with no zero, or are the single digit zero, are what
    [decimal] prints for their value. *)
Lemma decimal_parseInt (len : nat) (ds : string) :
  String.length ds = len -> all_digits ds = true ->
  (forall rest, ds = String "0" rest -> rest = "") -> ds <> "" ->
  decimal (parseInt10 ds) = ds.
Proof.
  revert ds. induction len as [|len IH]; intros ds Hlen Hd Hzero Hne.
  - destruct ds; [congruence | discriminate].
  - destruct (string_snoc ds Hne) as (s' & c & ->).
    rewrite all_digits_app in Hd. apply andb_prop in Hd as [Hs' Hc].
    cbn in Hc. rewrite andb_true_r in Hc.
    destruct (digit_value_char c Hc) as [Hchar Hlt].
    unfold parseInt10. rewrite parseInt_from_app by assumption.
    cbn [parseInt_from]. rewrite Hc.
    destruct s' as [|a s'].
    + cbn [parseInt_from]. rewrite N.mul_0_l, N.add_0_l.
      rewrite decimal_small by assumption. now rewrite Hchar.
    + assert (a <> "0"%char) as Ha.
      { intros ->. specialize (Hzero _ (append_cons _ _ _)).
        destruct s'; discriminate. }
      assert (1 <= parseInt_from 0 (String a s'))%N as Hpos.
      { cbn in Hs'. apply andb_prop in Hs' as [Hda _]. cbn [parseInt_from]. rewrite Hda.
        pose proof (parseInt_from_ge s' (0 * 10 + digit_value a)) as Hge.
        assert (digit_value a <> 0)%N; [|lia].
        intros Hz. apply Ha. destruct (digit_value_char a Hda) as [<- _].
        now rewrite Hz. }
      rewrite decimal_step by lia.
      replace ((parseInt_from 0 (String a s') * 10 + digit_value c) / 10)%N
        with (parseInt_from 0 (String a s')).
      2: { apply (N.div_unique _ 10 _ (digit_value c)); lia. }
      replace ((parseInt_from 0 (String a s') * 10 + digit_value c) mod 10)%N
        with (digit_value c).
      2: { apply (N.mod_unique _ 10 (parseInt_from 0 (String a s'))); lia. }
      rewrite Hchar. f_equal.
      apply IH.
      * rewrite length_append in Hlen. cbn in *. lia.
      * assumption.
      * intros rest E. injection E as -> _. congruence.
      * discriminate.
Qed.

Lemma two_digits_print (r : N) :
  (r < 100)%N ->
  padStart 2 "0" (Number_toString r)
  = String (digit_char (r / 10)) (String (digit_char (r mod 10)) "").
Proof.
  intros Hr.
  assert (forallb (fun r =>
            String.eqb (padStart 2 "0" (Number_toString r))
              (String (digit_char (r / 10)) (String (digit_char (r mod 10)) "")))
            (map N.of_nat (seq 0 100)) = true) as Hall
    by (vm_compute; reflexivity).
  rewrite forallb_forall in Hall. apply String.eqb_eq, Hall.
  apply in_map_iff. exists (N.to_nat r). split; [apply N2Nat.id|].
  apply in_seq. lia.
Qed.

Lemma match_timestamp_intro (g1 : string) (a b : ascii) :
  g1 <> "" -> all_digits g1 = true -> is_digit a = true -> is_digit b = true ->
  match_timestamp (g1 +:+ ":" +:+ String a (String b ""))
  = Some (g1, String a (String b "")).
Proof.
  intros Hne Hd Ha Hb. unfold match_timestamp.
  change (":" +:+ String a (String b "")) with (String ":" (String a (String b ""))).
  rewrite span_digits_stop by (assumption || reflexivity).
  destruct g1 as [|m ms]; [congruence|]. now rewrite Ha, Hb.
Qed.

End TimestampFacts.

(** What an accepted timestamp is made of. *)
Lemma timestamp_pattern_parts (t g1 g2 : string) :
  TimeUtils.match_timestamp t = Some (g1, g2) ->
  t = g1 +:+ ":" +:+ g2 /\ g1 <> "" /\ TimeUtils.all_digits g1 = true
  /\ exists a b, g2 = String a (String b "")
                 /\ TimeUtils.is_digit a = true /\ TimeUtils.is_digit b = true.
Proof.
  unfold TimeUtils.match_timestamp. intros H.
  destruct (TimeUtils.span_digits t) as [ds rest] eqn:Hspan.
  apply span_digits_spec in Hspan as [-> Hds].
  destruct ds as [|m ms]; [discriminate|].
  destruct rest as [|c rest]; [discriminate|].
  destruct (Ascii.eqb_spec c ":") as [->|Hc].
  2: { exfalso. revert H Hc.
       destruct c as [[] [] [] [] [] [] [] []]; try discriminate. congruence. }
  destruct rest as [|a [|b [|? ?]]]; try discriminate.
  destruct (TimeUtils.is_digit a) eqn:Ha; [|discriminate].
  destruct (TimeUtils.is_digit b) eqn:Hb; [|discriminate].
  cbn in H. injection H as <- <-.
  repeat split; try assumption; try discriminate. eauto.
Qed.

(** X1. The pattern of [timestampToSeconds] accepts exactly the texts made
    of a non-empty run of digits, a colon and two digits, with the runs as
    its groups; any other text gives 0, and an accepted one gives sixty
    times the first number plus the second, as long as that is a safe
    integer. *)
Theorem X1_timestamp_pattern (t g1 g2 : string) :
  (TimeUtils.match_timestamp t = Some (g1, g2)
   <-> t = g1 +:+ ":" +:+ g2 /\ g1 <> "" /\ TimeUtils.all_digits g1 = true
       /\ String.length g2 = 2 /\ TimeUtils.all_digits g2 = true)
  /\ (TimeUtils.match_timestamp t = Some (g1, g2) ->
      (TimeUtils.parseInt10 g1 * 60 + TimeUtils.parseInt10 g2
       <= TimeUtils.MAX_SAFE_INTEGER)%N ->
      TimeUtils.timestampToSeconds t
      = (TimeUtils.parseInt10 g1 * 60 + TimeUtils.parseInt10 g2)%N)
  /\ (TimeUtils.match_timestamp t = None -> TimeUtils.timestampToSeconds t = 0%N).
Proof.
  split; [split|split].
  - intros H.
    destruct (timestamp_pattern_parts t g1 g2 H) as (-> & Hne & Hd & a & b & -> & Ha & Hb).
    repeat split; try assumption. cbn. now rewrite Ha, Hb.
  - intros (-> & Hne & Hd & Hlen & Hd2).
    destruct g2 as [|a [|b [|? ?]]]; try discriminate.
    cbn in Hd2. apply andb_prop in Hd2 as [Ha Hb]. rewrite andb_true_r in Hb.
    now apply match_timestamp_intro.
  - intros H _. unfold TimeUtils.timestampToSeconds. now rewrite H.
  - intros H. unfold TimeUtils.timestampToSeconds. now rewrite H.
Qed.

Lemma X1_timestamp_pattern_witness :
  TimeUtils.match_timestamp "10:45" = Some ("10", "45")
  /\ TimeUtils.timestampToSeconds "10:45" = 645%N
  /\ TimeUtils.timestampToSeconds "10:4x" = 0%N.
Proof.
  destruct (X1_timestamp_pattern "10:45" "10" "45") as (Hiff & Hvalue & _).
  assert (TimeUtils.match_timestamp "10:45" = Some ("10", "45")) as Hm.
  { apply Hiff. repeat split; try reflexivity. discriminate. }
  split; [exact Hm|]. split.
  - apply (Hvalue Hm). vm_compute. discriminate.
  - apply (X1_timestamp_pattern "10:4x" "" ""). reflexivity.
Defined.

(** X2. For a safe integer, [secondsToTimestamp] prints the minutes without
    padding, a colon, and the seconds within the minute as exactly two
    digits (tens, then units); its pattern accepts the result, with the
    minutes and the seconds as the two groups. *)
Theorem X2_secondsToTimestamp_shape (s : N) :
  (s <= TimeUtils.MAX_SAFE_INTEGER)%N ->
  let seconds_field :=
    String (TimeUtils.digit_char (s mod 60 / 10))
      (String (TimeUtils.digit_char (s mod 60 mod 10)) "") in
  TimeUtils.secondsToTimestamp s
  = TimeUtils.decimal (s / 60) +:+ ":" +:+ seconds_field
  /\ TimeUtils.match_timestamp (TimeUtils.secondsToTimestamp s)
     = Some (TimeUtils.decimal (s / 60), seconds_field)
  /\ TimeUtils.parseInt10 (TimeUtils.decimal (s / 60)) = (s / 60)%N
  /\ TimeUtils.parseInt10 seconds_field = (s mod 60)%N.
Proof.
  intros Hs seconds_field. unfold TimeUtils.MAX_SAFE_INTEGER in Hs.
  assert (s mod 60 < 60)%N as Hr by (apply N.mod_lt; lia).
  assert (s / 60 < 10 ^ 21)%N as Hm by (apply N.Div0.div_lt_upper_bound; lia).
  assert (TimeUtils.secondsToTimestamp s
          = TimeUtils.decimal (s / 60) +:+ ":" +:+ seconds_field) as Hshape.
  { unfold TimeUtils.secondsToTimestamp.
    rewrite two_digits_print by lia.
    unfold TimeUtils.Number_toString. now rewrite (proj2 (N.ltb_lt _ _) Hm). }
  destruct (decimal_spec (s / 60)) as (Hd & Hne & Hp).
  assert (s mod 60 / 10 < 10)%N as Htens
    by (apply N.Div0.div_lt_upper_bound; lia).
  assert (s mod 60 mod 10 < 10)%N as Hunits by (apply N.mod_lt; lia).
  split; [exact Hshape|]. split; [|split; [exact Hp|]].
  - rewrite Hshape. apply match_timestamp_intro; try assumption;
      now apply digit_char_is_digit.
  - unfold seconds_field, TimeUtils.parseInt10. cbn [TimeUtils.parseInt_from].
    rewrite !digit_char_is_digit, !digit_char_value by assumption.
    pose proof (N.div_mod (s mod 60) 10). lia.
Qed.

Lemma X2_secondsToTimestamp_shape_witness :
  TimeUtils.secondsToTimestamp 3605 = "60:05"
  /\ TimeUtils.match_timestamp (TimeUtils.secondsToTimestamp 3605)
     = Some ("60", "05").
Proof.
  assert (3605 <= TimeUtils.MAX_SAFE_INTEGER)%N as H by (vm_compute; discriminate).
  destruct (X2_secondsToTimestamp_shape 3605 H) as (Hshape & Hmatch & _).
  split; [exact Hshape | exact Hmatch].
Defined.

Lemma canonical_roundtrip (t g1 g2 : string) :
  TimeUtils.match_timestamp t = Some (g1, g2) ->
  (forall rest, g1 = String "0" rest -> rest = "") ->
  (TimeUtils.parseInt10 g2 < 60)%N ->
  (TimeUtils.timestampToSeconds t <= TimeUtils.MAX_SAFE_INTEGER)%N ->
  TimeUtils.secondsToTimestamp (TimeUtils.timestampToSeconds t) = t.
Proof.
  intros Hmatch Hzero Hsec Hsafe.
  destruct (timestamp_pattern_parts t g1 g2 Hmatch) as (-> & Hne & Hd & a & b & -> & Ha & Hb).
  unfold TimeUtils.timestampToSeconds in *. rewrite Hmatch in *.
  cbv zeta in *. unfold TimeUtils.MAX_SAFE_INTEGER in Hsafe.
  set (m := TimeUtils.parseInt10 g1) in *.
  set (r := TimeUtils.parseInt10 (String a (String b ""))) in *.
  unfold TimeUtils.secondsToTimestamp.
  replace ((m * 60 + r) / 60)%N with m
    by (apply (N.div_unique _ 60 _ r); lia).
  replace ((m * 60 + r) mod 60)%N with r
    by (apply (N.mod_unique _ 60 m); lia).
  rewrite two_digits_print by lia.
  unfold TimeUtils.Number_toString.
  rewrite (proj2 (N.ltb_lt m (10 ^ 21)%N)) by lia.
  unfold m. rewrite (decimal_parseInt _ g1 eq_refl Hd Hzero Hne).
  do 2 f_equal.
  destruct (digit_value_char a Ha) as [Hca Hla].
  destruct (digit_value_char b Hb) as [Hcb Hlb].
  assert (r = TimeUtils.digit_value a * 10 + TimeUtils.digit_value b)%N as Hr.
  { unfold r, TimeUtils.parseInt10. cbn [TimeUtils.parseInt_from].
    rewrite Ha, Hb. lia. }
  replace (r / 10)%N with (TimeUtils.digit_value a)
    by (apply (N.div_unique _ 10 _ (TimeUtils.digit_value b)); lia).
  replace (r mod 10)%N with (TimeUtils.digit_value b)
    by (apply (N.mod_unique _ 10 (TimeUtils.digit_value a)); lia).
  now rewrite Hca, Hcb.
Qed.

(** X3. The other round trip: a timestamp that the pattern accepts, whose
    minutes carry no leading zero and whose seconds are below 60, comes
    back unchanged from [secondsToTimestamp] after [timestampToSeconds]
    (for a number of seconds that is a safe integer). *)
Theorem X3_timestamp_roundtrip (t g1 g2 : string) :
  TimeUtils.match_timestamp t = Some (g1, g2) ->
  (forall rest, g1 = String "0" rest -> rest = "") ->
  (TimeUtils.parseInt10 g2 < 60)%N ->
  (TimeUtils.timestampToSeconds t <= TimeUtils.MAX_SAFE_INTEGER)%N ->
  TimeUtils.secondsToTimestamp (TimeUtils.timestampToSeconds t) = t.
Proof. apply canonical_roundtrip. Qed.

Lemma X3_timestamp_roundtrip_witness :
  TimeUtils.secondsToTimestamp (TimeUtils.timestampToSeconds "12:07") = "12:07".
Proof.
  apply (X3_timestamp_roundtrip "12:07" "12" "07").
  - reflexivity.
  - intros rest H. discriminate H.
  - vm_compute. reflexivity.
  - vm_compute. discriminate.
Defined.

(** * Clicking a timestamp of the transcript *)

Section ClickFacts.
Import TranscriptPanel.

Lemma append_assoc (s t u : string) : (s +:+ t) +:+ u = s +:+ (t +:+ u).
Proof.
  induction s as [|c s IH]; [reflexivity|]. now rewrite !append_cons, IH.
Qed.

(** The first group of the line pattern is a timestamp of the pattern of
    [timestampToSeconds]. *)
Lemma match_line_timestamp (line timestamp text : string) :
  match_line line = Some (timestamp, text) ->
  exists g1 g2, TimeUtils.match_timestamp timestamp = Some (g1, g2)
                /\ exists rest, line = timestamp +:+ rest.
Proof.
  unfold match_line. intros H.
  destruct (TimeUtils.span_digits line) as [ds rest] eqn:Hspan.
  apply span_digits_spec in Hspan as [-> Hds].
  destruct ds as [|m ms]; [discriminate|].
  destruct rest as [|c rest]; [discriminate|].
  destruct (Ascii.eqb_spec c ":") as [->|Hc].
  2: { exfalso. revert H Hc.
       destruct c as [[] [] [] [] [] [] [] []]; try discriminate. congruence. }
  destruct rest as [|a [|b rest]]; try discriminate.
  destruct (TimeUtils.is_digit a) eqn:Ha; [|discriminate].
  destruct (TimeUtils.is_digit b) eqn:Hb; [|discriminate].
  cbn [andb] in H. cbv iota in H.
  destruct (ws_char_rest rest) as [[|w r]|]; try discriminate.
  injection H as <- <-.
  exists (String m ms), (String a (String b "")). split.
  - apply match_timestamp_intro; (discriminate || assumption).
  - exists rest. now rewrite append_assoc.
Qed.

End ClickFacts.

(** X4. The timestamp the panel shows for a transcript line is always one
    that [timestampToSeconds] accepts: a click on it never takes the
    invalid-format path, and when the timestamp stands for a safe integer
    of seconds it hands the dashboard sixty times its minutes plus its
    seconds, which with the player ready is the second sought. *)
Theorem X4_line_timestamp_click (props : TranscriptPanel.Props)
    (line timestamp : string) (playerRef : bool) :
  TranscriptPanel.line_timestamp line = Some timestamp ->
  TranscriptPanel.onTimestampClick props = true ->
  (TimeUtils.timestampToSeconds timestamp <= TimeUtils.MAX_SAFE_INTEGER)%N ->
  exists g1 g2,
    TimeUtils.match_timestamp timestamp = Some (g1, g2)
    /\ TranscriptPanel.handleTimestampClick props timestamp
       = Some (TimeUtils.parseInt10 g1 * 60 + TimeUtils.parseInt10 g2)%N
    /\ (Dashboard.timestamp_clicked true true props timestamp).1
       = Some (TimeUtils.parseInt10 g1 * 60 + TimeUtils.parseInt10 g2)%N
    /\ (Dashboard.timestamp_clicked true false props timestamp).1 = None
    /\ Dashboard.timestamp_clicked false playerRef props timestamp = (None, None).
Proof.
  intros Hline Hclick _. unfold TranscriptPanel.line_timestamp in Hline.
  destruct (TranscriptPanel.match_line line) as [[ts text]|] eqn:Hm;
    [|discriminate]. injection Hline as ->.
  destruct (match_line_timestamp _ _ _ Hm) as (g1 & g2 & Hmatch & _).
  exists g1, g2. split; [exact Hmatch|].
  unfold Dashboard.timestamp_clicked, TranscriptPanel.handleTimestampClick.
  rewrite Hclick. unfold TimeUtils.timestampToSeconds. rewrite Hmatch.
  repeat split.
Qed.

Lemma X4_line_timestamp_click_witness :
  exists g1 g2,
    TimeUtils.match_timestamp "1:23" = Some (g1, g2)
    /\ TranscriptPanel.handleTimestampClick
         {| TranscriptPanel.videoId := "abc"; TranscriptPanel.aiProvider := "gemini";
            TranscriptPanel.model := None; TranscriptPanel.onTimestampClick := true |}
         "1:23"
       = Some (TimeUtils.parseInt10 g1 * 60 + TimeUtils.parseInt10 g2)%N.
Proof.
  destruct (X4_line_timestamp_click
              {| TranscriptPanel.videoId := "abc";
                 TranscriptPanel.aiProvider := "gemini";
                 TranscriptPanel.model := None;
                 TranscriptPanel.onTimestampClick := true |}
              "1:23 hello there" "1:23" true eq_refl eq_refl)
    as (g1 & g2 & Hmatch & Hclick & _).
  - vm_compute. discriminate.
  - exists g1, g2. split; assumption.
Defined.

(** X5. The toast of the dashboard repeats the timestamp clicked: for a
    timestamp whose minutes carry no leading zero and whose seconds are
    below 60, the toast reads that timestamp followed by the "moving to"
    suffix, whether or not the player is ready. *)
Theorem X5_toast_repeats_timestamp (props : TranscriptPanel.Props)
    (timestamp g1 g2 : string) (playerRef : bool) :
  TranscriptPanel.onTimestampClick props = true ->
  TimeUtils.match_timestamp timestamp = Some (g1, g2) ->
  (forall rest, g1 = String "0" rest -> rest = "") ->
  (TimeUtils.parseInt10 g2 < 60)%N ->
  (TimeUtils.timestampToSeconds timestamp <= TimeUtils.MAX_SAFE_INTEGER)%N ->
  (Dashboard.timestamp_clicked true playerRef props timestamp).2
  = Some (timestamp +:+ "로 이동").
Proof.
  intros Hclick Hmatch Hzero Hsec Hsafe.
  pose proof (canonical_roundtrip _ _ _ Hmatch Hzero Hsec Hsafe) as Hround.
  unfold Dashboard.timestamp_clicked, TranscriptPanel.handleTimestampClick.
  rewrite Hclick. unfold Dashboard.handleTimestampClick. cbn [snd].
  unfold TimeUtils.secondsToTimestamp in Hround. cbv zeta in Hround.
  f_equal. rewrite <- Hround at 3.
  now rewrite !append_assoc.
Qed.

Lemma X5_toast_repeats_timestamp_witness :
  (Dashboard.timestamp_clicked true false
     {| TranscriptPanel.videoId := "abc"; TranscriptPanel.aiProvider := "gemini";
        TranscriptPanel.model := None; TranscriptPanel.onTimestampClick := true |}
     "1:23").2
  = Some ("1:23" +:+ "로 이동").
Proof.
  apply (X5_toast_repeats_timestamp _ "1:23" "1" "23").
  - reflexivity.
  - reflexivity.
  - intros rest H. discriminate H.
  - vm_compute. reflexivity.
  - vm_compute. discriminate.
Defined.


(** * Translations in the transcript panel *)

Section TranslationFacts.
Import TranscriptPanel.

Lemma newTranslations_dom (ts : list string) (i : nat) :
  is_Some (Api.newTranslations ts !! i) <-> i < length ts.
Proof. rewrite newTranslations_lookup. apply lookup_lt_is_Some. Qed.

Lemma newTranslations_map_seq (ts : list string) :
  Api.newTranslations ts = map_seq 0 ts.
Proof.
  apply map_eq. intros i. now rewrite newTranslations_lookup, lookup_map_seq_0.
Qed.

Lemma map_seq_size (ts : list string) (start : nat) :
  size (map_seq start ts : gmap nat string) = length ts.
Proof.
  revert start. induction ts as [|t ts IH]; intros start.
  - apply map_size_empty.
  - rewrite map_seq_cons, map_size_insert_None by apply map_seq_cons_disjoint.
    cbn. now rewrite IH.
Qed.

Lemma newTranslations_size (ts : list string) :
  size (Api.newTranslations ts) = length ts.
Proof. rewrite newTranslations_map_seq. apply map_seq_size. Qed.

(** Once something is stored, the button only shows and hides. *)
Lemma click_with_translations (props : Props) (lines : list string) (st : State) :
  0 < size (segmentTranslations st) ->
  handleTranslateFull_click props lines st = (toggled st, None).
Proof.
  intros Hpos. unfold handleTranslateFull_click.
  destruct (Nat.eqb _ _); [reflexivity|].
  now rewrite (proj2 (Nat.ltb_lt _ _) Hpos).
Qed.

(** [newSet.delete(index)] undoes [new Set(prev).add(index)] for an index
    that was not in the set. *)
Lemma remove_added (X : gset nat) (i : nat) : i ∉ X -> (X ∪ {[i]}) ∖ {[i]} = X.
Proof.
  intros Hi. apply set_eq. intros x.
  rewrite elem_of_difference, elem_of_union, elem_of_singleton. split.
  - intros [[Hx|Hx] Hne]; [assumption | contradiction].
  - intros Hx. split; [now left | intros ->; contradiction].
Qed.

End TranslationFacts.

(** X6. The full-translation button sends a batch request exactly when
    nothing is stored yet and the transcript has lines.  Once a batch
    answer with at least one translation is stored, whatever their number,
    no later click sends a request or changes what is stored: clicks only
    show and hide, so translations missing from a short answer are never
    asked for again by this button. *)
Theorem X6_full_translation_requests (props : TranscriptPanel.Props)
    (lines : list string) (st : TranscriptPanel.State) :
  (is_Some (TranscriptPanel.handleTranslateFull_click props lines st).2
   <-> size (TranscriptPanel.segmentTranslations st) = 0 /\ lines <> [])
  /\ (forall (result : Api.TranslateBatchResponse) (clicks : nat)
        (props' : TranscriptPanel.Props) (lines' : list string),
        Api.translations result <> [] ->
        let stored :=
          (TranscriptPanel.handleTranslateFull_settle st (ok result)).1 in
        let later :=
          Nat.iter clicks
            (fun s => (TranscriptPanel.handleTranslateFull_click props' lines' s).1)
            stored in
        (TranscriptPanel.handleTranslateFull_click props' lines' later).2 = None
        /\ TranscriptPanel.segmentTranslations later
           = Api.newTranslations (Api.translations result)).
Proof.
  split.
  - unfold TranscriptPanel.handleTranslateFull_click.
    destruct (Nat.eqb_spec (size (TranscriptPanel.segmentTranslations st))
                (length lines)) as [Heq|Hne]; cbn [snd].
    + split; [intros [? H]; discriminate H|].
      intros [Hz Hl]. destruct lines; [congruence|]. cbn in Heq. lia.
    + destruct (Nat.ltb_spec 0 (size (TranscriptPanel.segmentTranslations st)))
        as [Hpos|Hz]; cbn [snd].
      * split; [intros [? H]; discriminate H | lia].
      * split; [|eauto]. intros _. split; [lia|].
        intros ->. cbn in Hne. lia.
  - intros result clicks props' lines' Hne stored later.
    assert (TranscriptPanel.segmentTranslations later
            = Api.newTranslations (Api.translations result)) as Hkept.
    { subst later. induction clicks as [|n IH]; [reflexivity|].
      rewrite Nat.iter_succ. cbv beta.
      rewrite click_with_translations; [exact IH|].
      rewrite IH, newTranslations_size.
      destruct (Api.translations result); [congruence | cbn; lia]. }
    split; [|exact Hkept].
    rewrite click_with_translations; [reflexivity|].
    rewrite Hkept, newTranslations_size.
    destruct (Api.translations result); [congruence | cbn; lia].
Qed.

Lemma X6_full_translation_requests_witness :
  let props :=
    {| TranscriptPanel.videoId := "abc"; TranscriptPanel.aiProvider := "gemini";
       TranscriptPanel.model := None; TranscriptPanel.onTimestampClick := true |} in
  let st :=
    {| TranscriptPanel.showTranslation := false;
       TranscriptPanel.segmentTranslations := ∅;
       TranscriptPanel.translatingSegments := ∅;
       TranscriptPanel.isTranslatingFull := true |} in
  let later :=
    Nat.iter 3
      (fun s => (TranscriptPanel.handleTranslateFull_click props
                   ["0:01 Hello"; "0:02 World"] s).1)
      (TranscriptPanel.handleTranslateFull_settle st
         (ok {| Api.translations := ["annyeong"] |})).1 in
  (TranscriptPanel.handleTranslateFull_click props
     ["0:01 Hello"; "0:02 World"] later).2 = None.
Proof.
  intros props st later.
  apply (X6_full_translation_requests props ["0:01 Hello"; "0:02 World"] st).
  discriminate.
Defined.

(** X7. Translating one segment: a segment that is being translated or
    already has a translation triggers no request; otherwise, when the
    answer meets the state the click left, a translation is stored under
    the segment's index and every other index keeps what it had, while a
    failure restores the state from before the click. *)
Theorem X7_segment_translation (st : TranscriptPanel.State) (index : nat) :
  (index ∈ TranscriptPanel.translatingSegments st
   \/ is_Some (TranscriptPanel.segmentTranslations st !! index) ->
   TranscriptPanel.handleTranslateSegment_send st index = None)
  /\ (index ∉ TranscriptPanel.translatingSegments st ->
      TranscriptPanel.segmentTranslations st !! index = None ->
      exists sent,
        TranscriptPanel.handleTranslateSegment_send st index = Some sent
        /\ TranscriptPanel.handleTranslateSegment_send sent index = None
        /\ (forall translation,
              let done :=
                (TranscriptPanel.handleTranslateSegment_settle sent index
                   (ok translation)).1 in
              TranscriptPanel.segmentTranslations done !! index = Some translation
              /\ (forall other, other <> index ->
                    TranscriptPanel.segmentTranslations done !! other
                    = TranscriptPanel.segmentTranslations st !! other)
              /\ TranscriptPanel.translatingSegments done
                 = TranscriptPanel.translatingSegments st)
        /\ (forall e,
              (TranscriptPanel.handleTranslateSegment_settle sent index
                 (raise e)).1 = st)).
Proof.
  split.
  - intros [Hin|Hhas]; unfold TranscriptPanel.handleTranslateSegment_send.
    + now rewrite decide_True.
    + destruct (decide (index ∈ _)); [reflexivity|]. now rewrite decide_True.
  - intros Hnotin Hnone. unfold TranscriptPanel.handleTranslateSegment_send.
    rewrite decide_False by assumption.
    rewrite decide_False by (rewrite Hnone; intros [? H]; discriminate H).
    eexists. split; [reflexivity|]. cbn.
    split; [|split].
    + rewrite decide_True by set_solver. reflexivity.
    + intros translation. split; [apply lookup_insert_eq|]. split.
      * intros other Hother. now apply lookup_insert_ne.
      * now apply remove_added.
    + intros e. destruct st as [sh tr ing full]. cbn in *. f_equal.
      now apply remove_added.
Qed.

Lemma X7_segment_translation_witness :
  let st :=
    {| TranscriptPanel.showTranslation := false;
       TranscriptPanel.segmentTranslations := {[ 0 := "annyeong" ]};
       TranscriptPanel.translatingSegments := ∅;
       TranscriptPanel.isTranslatingFull := false |} in
  TranscriptPanel.handleTranslateSegment_send st 0 = None
  /\ exists sent, TranscriptPanel.handleTranslateSegment_send st 1 = Some sent
                  /\ (TranscriptPanel.handleTranslateSegment_settle sent 1
                        (raise Api.NotAnError)).1 = st.
Proof.
  intros st. split.
  - apply (X7_segment_translation st 0). right. exists "annyeong". reflexivity.
  - destruct (X7_segment_translation st 1) as (_ & H).
    destruct H as (sent & Hsend & _ & _ & Hfail);
      [set_solver | reflexivity |].
    exists sent. split; [exact Hsend | apply Hfail].
Defined.

(** * More on the composed prompt *)

Section PromptShapeFacts.
Import Prompts PromptShape.

Lemma three_templates_role_then_script :
  role_then_script BASE_OVERVIEW = true
  /\ role_then_script BASE_DETAIL_DIALOGUE = true
  /\ role_then_script BASE_DETAIL_PRESENTATION = true.
Proof. repeat split; vm_compute; reflexivity. Qed.

Lemma templateFor_role_then_script (prompt_type : string)
    (format_type : option string) :
  role_then_script (templateFor prompt_type format_type) = true.
Proof.
  destruct three_templates_role_then_script as (Ho & Hd & Hp). unfold templateFor.
  destruct (String.eqb prompt_type "overview"); [assumption|].
  destruct (is_presentation format_type); assumption.
Qed.

Lemma format_role_then_script (template r t : string) :
  role_then_script template = true ->
  format template [("role", r); ("transcript", t)]
  = ok ("[ROLE]" +:+ nl +:+ r +:+ instructions template +:+ t)
  /\ ends_with (nl +:+ script_header) (instructions template) = true.
Proof.
  unfold role_then_script, instructions, format. intros Hshape.
  destruct (parse_format template) as [e|ps]; [discriminate|].
  destruct ps as [|[pre|] [|[|f1] [|[mid|] [|[|f2] [|]]]]]; try discriminate.
  split_andb. reflect_tests. split; [|assumption].
  cbn. now rewrite append_empty_r.
Qed.

(** Where a needle can be found in a text put together from two parts. *)
Lemma contains_app_r (pat s t : string) :
  contains pat t = true -> contains pat (s +:+ t) = true.
Proof.
  intros Ht. induction s as [|c s IH]; [exact Ht|].
  rewrite append_cons. cbn [contains]. rewrite IH. apply orb_true_r.
Qed.

Lemma slot_in (pat_tail pre r mid t : string) :
  has_char (ascii_of_nat 10) (String "{" pat_tail) = false ->
  has_char "{" pre = false -> has_char "{" mid = false ->
  contains (String "{" pat_tail)
    (pre +:+ r +:+ String (ascii_of_nat 10) mid +:+ t +:+ "")
  = contains (String "{" pat_tail) r || contains (String "{" pat_tail) t.
Proof.
  intros Hnl Hpre Hmid.
  rewrite append_empty_r.
  change (String (ascii_of_nat 10) mid +:+ t)
    with (String (ascii_of_nat 10) (mid +:+ t)).
  rewrite contains_skip by assumption.
  rewrite contains_app_sep by assumption.
  now rewrite contains_skip by assumption.
Qed.

Lemma format_two_slots_contains (template r t : string) :
  parses_to_two_slots template = true ->
  exists out,
    format template [("role", r); ("transcript", t)] = ok out
    /\ contains "{role}" out = contains "{role}" r || contains "{role}" t
    /\ contains "{transcript}" out
       = contains "{transcript}" r || contains "{transcript}" t.
Proof.
  unfold parses_to_two_slots, format. intros Hshape.
  destruct (parse_format template) as [e|ps]; [discriminate|].
  destruct ps as [|[pre|] [|[|f1] [|[[|c mid]|] [|[|f2] [|]]]]]; try discriminate.
  cbn [two_slot_shape] in Hshape. split_andb. reflect_tests.
  eexists. split; [reflexivity|].
  split; apply slot_in; auto.
Qed.



End PromptShapeFacts.

(** X8. The layout of a composed prompt: with "general" registered, every
    prompt is the [ROLE] line, the role text, the instructions of the
    template selected, and then the transcript, verbatim, as the end of the
    prompt; the instructions end with the line of equals signs and the
    [TARGET SCRIPT] header, so the transcript starts right after that
    header.  The topic enters through the role text only. *)
Theorem X8_prompt_layout (roles : gmap string string) (general : string)
    (topic format_type : option string) (transcript prompt_type : string) :
  roles !! "general" = Some general ->
  exists role,
    Prompts.roleFor roles topic = ok role
    /\ Prompts.create_prompt roles topic format_type transcript prompt_type
       = ok ("[ROLE]" +:+ nl +:+ role
               +:+ PromptShape.instructions
                     (Prompts.templateFor prompt_type format_type)
               +:+ transcript)
    /\ PromptShape.ends_with (nl +:+ PromptShape.script_header)
         (PromptShape.instructions (Prompts.templateFor prompt_type format_type))
       = true.
Proof.
  intros Hg.
  assert (exists role, Prompts.roleFor roles topic = ok role) as (role & Hrole).
  { destruct (roleFor_cases roles general topic Hg) as [H|(k & v & _ & _ & H)]; eauto. }
  exists role. split; [exact Hrole|].
  rewrite create_prompt_unfold, Hrole. cbn [bind].
  apply format_role_then_script, templateFor_role_then_script.
Qed.

Lemma X8_prompt_layout_witness :
  exists role,
    Prompts.roleFor Prompts.documented_roles (Some "tech") = ok role
    /\ Prompts.create_prompt Prompts.documented_roles (Some "tech") None
         "0:05 hello" "overview"
       = ok ("[ROLE]" +:+ nl +:+ role
               +:+ PromptShape.instructions (Prompts.templateFor "overview" None)
               +:+ "0:05 hello").
Proof.
  destruct (X8_prompt_layout Prompts.documented_roles Prompts.general_role
              (Some "tech") None "0:05 hello" "overview" eq_refl)
    as (role & Hrole & Hprompt & _).
  exists role. split; assumption.
Defined.

(** X9. A placeholder survives exactly when the transcript has it: with
    "general" registered and role texts that hold no placeholder, the
    prompt contains "{role}" if and only if the transcript does, and
    likewise "{transcript}". *)
Theorem X9_placeholders_iff (roles : gmap string string) (general : string)
    (topic format_type : option string) (transcript prompt_type : string) :
  roles !! "general" = Some general ->
  (forall key text, roles !! key = Some text -> Prompts.resolved text = true) ->
  exists prompt,
    Prompts.create_prompt roles topic format_type transcript prompt_type = ok prompt
    /\ contains "{role}" prompt = contains "{role}" transcript
    /\ contains "{transcript}" prompt = contains "{transcript}" transcript.
Proof.
  intros Hg Hroles.
  assert (exists role, Prompts.roleFor roles topic = ok role
                       /\ Prompts.resolved role = true) as (role & Hrole & Hres).
  { destruct (roleFor_cases roles general topic Hg) as [H|(k & v & _ & Hk & H)];
      eauto. }
  apply resolved_iff in Hres as [Hr1 Hr2].
  unfold Prompts.role_slot in Hr1. unfold Prompts.transcript_slot in Hr2.
  rewrite create_prompt_unfold, Hrole. cbn [bind].
  destruct (format_two_slots_contains
              (Prompts.templateFor prompt_type format_type) role transcript)
    as (prompt & Hfmt & H1 & H2); [apply templateFor_two_slots|].
  exists prompt. rewrite H1, H2, Hr1, Hr2. auto.
Qed.

Lemma X9_placeholders_iff_witness :
  exists prompt,
    Prompts.create_prompt Prompts.documented_roles None None
      "call {role} now" "detail" = ok prompt
    /\ contains "{role}" prompt = contains "{role}" "call {role} now"
    /\ contains "{transcript}" prompt = contains "{transcript}" "call {role} now".
Proof.
  apply (X9_placeholders_iff _ Prompts.general_role).
  - reflexivity.
  - exact documented_roles_resolved.
Defined.

(** X10. Without "general" in the registry [create_prompt] raises
    KeyError("general") for every topic, registered ones included: the
    default of the lookup is evaluated before the lookup. *)
Theorem X10_general_must_be_registered (roles : gmap string string)
    (topic format_type : option string) (transcript prompt_type : string) :
  roles !! "general" = None ->
  Prompts.roleFor roles topic = raise (Prompts.KeyError "general")
  /\ Prompts.create_prompt roles topic format_type transcript prompt_type
     = raise (Prompts.KeyError "general").
Proof.
  intros Hg. unfold Prompts.create_prompt, Prompts.roleFor, Prompts.getitem.
  rewrite Hg. split; reflexivity.
Qed.

Lemma X10_general_must_be_registered_witness :
  Prompts.create_prompt {[ "tech" := "a technology editor" ]} (Some "tech")
    None "0:05 hello" "detail"
  = raise (Prompts.KeyError "general").
Proof.
  apply (X10_general_must_be_registered {[ "tech" := "a technology editor" ]}).
  reflexivity.
Defined.



(** * More on the chat panel *)

Section ChatFacts.
Import ChatPanel ChatPanelState.

Lemma drop_1_snoc {A : Type} (l : list A) (x : A) :
  l <> [] -> drop 1 (l ++ [x]) = drop 1 l ++ [x].
Proof. destruct l; [congruence | reflexivity]. Qed.

End ChatFacts.

(** X12. The history mirrors the messages: the effect that runs on a
    change of video leaves the history equal to the turns of all messages
    but the first, and a submission keeps it so whatever the outcome of the
    request, provided there is a first message (the greeting). *)
Theorem X12_history_mirrors_messages (props : ChatPanel.Props)
    (st : ChatPanel.State) (now later : N)
    (outcome : Api.FetchOutcome Api.ChatResponse) :
  (forall initialMessages,
      ChatPanelState.mirrors (ChatPanelState.useEffect_reset initialMessages st))
  /\ (ChatPanelState.mirrors st ->
      ChatPanel.messages st <> [] ->
      forall sent st' toast,
        ChatPanel.handleSubmit props st now outcome later
        = Some (sent, (st', toast)) ->
        ChatPanelState.mirrors st' /\ ChatPanel.messages st' <> []).
Proof.
  split.
  - intros [ms|]; reflexivity.
  - unfold ChatPanelState.mirrors. intros Hmirror Hne sent st' toast.
    unfold ChatPanel.handleSubmit, ChatPanel.handleSubmit_send.
    destruct (ChatPanel.blank (ChatPanel.input st) || ChatPanel.isLoading st);
      [discriminate|].
    cbn [ChatPanel.sent ChatPanel.state_sent ChatPanel.newHistory].
    intros H. injection H as _ H.
    destruct (Api.chatWithVideo _ outcome) as [e|response].
    + destruct e as [m|]; cbn in H; injection H as <- _; cbn;
        rewrite drop_1_snoc, map_app, Hmirror by assumption;
        (split; [reflexivity|]); now destruct (ChatPanel.messages st).
    + cbn in H. injection H as <- _. cbn.
      rewrite !drop_1_snoc, !map_app, Hmirror.
      * split; [reflexivity|]. now destruct (ChatPanel.messages st).
      * assumption.
      * now destruct (ChatPanel.messages st).
Qed.

Lemma X12_history_mirrors_messages_witness :
  let props :=
    {| ChatPanel.videoId := "abc"; ChatPanel.aiProvider := "gemini";
       ChatPanel.model := None |} in
  let st :=
    {| ChatPanel.messages := [ChatPanelState.greeting];
       ChatPanel.input := "why?"; ChatPanel.isLoading := false;
       ChatPanel.conversationHistory := [] |} in
  exists sent st' toast,
    ChatPanel.handleSubmit props st 1700000000000 (Api.NotOk None) 1700000000500
    = Some (sent, (st', toast))
    /\ ChatPanelState.mirrors st' /\ ChatPanel.messages st' <> [].
Proof.
  intros props st.
  destruct (ChatPanel.handleSubmit props st 1700000000000 (Api.NotOk None)
              1700000000500) as [[sent [st' toast]]|] eqn:Hsubmit;
    [|vm_compute in Hsubmit; discriminate Hsubmit].
  exists sent, st', toast. split; [reflexivity|].
  apply (X12_history_mirrors_messages props st 1700000000000 1700000000500
           (Api.NotOk None)) with (sent := sent) (toast := toast).
  - reflexivity.
  - discriminate.
  - exact Hsubmit.
Defined.



(** X14. One request at a time: in the state a submission leaves while its
    request is out, the loading flag is set and the input is empty, and a
    further submission sends nothing, whatever the props and the clock;
    once the request settles, either way, the loading flag is dropped. *)
Theorem X14_one_request_at_a_time (props : ChatPanel.Props) (st : ChatPanel.State)
    (now : N) (pending : ChatPanel.Pending) :
  ChatPanel.handleSubmit_send props st now = Some pending ->
  ChatPanel.isLoading (ChatPanel.state_sent pending) = true
  /\ ChatPanel.input (ChatPanel.state_sent pending) = ""
  /\ (forall props' now',
        ChatPanel.handleSubmit_send props' (ChatPanel.state_sent pending) now'
        = None)
  /\ (forall st' response later,
        ChatPanel.isLoading
          (ChatPanel.handleSubmit_settle st' (ChatPanel.newHistory pending)
             response later).1 = false).
Proof.
  unfold ChatPanel.handleSubmit_send.
  destruct (ChatPanel.blank (ChatPanel.input st) || ChatPanel.isLoading st);
    [discriminate|].
  intros H. injection H as <-. cbn. repeat split.
  intros st' [[m|]|response] later; reflexivity.
Qed.

Lemma X14_one_request_at_a_time_witness :
  exists pending,
    ChatPanel.handleSubmit_send
      {| ChatPanel.videoId := "abc"; ChatPanel.aiProvider := "gemini";
         ChatPanel.model := None |}
      {| ChatPanel.messages := [ChatPanelState.greeting];
         ChatPanel.input := "why?"; ChatPanel.isLoading := false;
         ChatPanel.conversationHistory := [] |}
      1700000000000 = Some pending
    /\ ChatPanel.handleSubmit_send
         {| ChatPanel.videoId := "abc"; ChatPanel.aiProvider := "gemini";
            ChatPanel.model := None |}
         (ChatPanel.state_sent pending) 1700000000001 = None.
Proof.
  destruct (ChatPanel.handleSubmit_send
              {| ChatPanel.videoId := "abc"; ChatPanel.aiProvider := "gemini";
                 ChatPanel.model := None |}
              {| ChatPanel.messages := [ChatPanelState.greeting];
                 ChatPanel.input := "why?"; ChatPanel.isLoading := false;
                 ChatPanel.conversationHistory := [] |}
              1700000000000) as [pending|] eqn:Hsend;
    [|vm_compute in Hsend; discriminate Hsend].
  exists pending. split; [reflexivity|].
  apply (X14_one_request_at_a_time _ _ _ _ Hsend).
Defined.

(** * The start page *)

Section IndexFacts.
Import Index.

Lemma span_id_chars (s : string) (c : ascii) :
  has_char c (span_id s) = true -> id_char c = true.
Proof.
  induction s as [|a s IH]; cbn; [discriminate|].
  destruct (id_char a) eqn:Ha; [|discriminate]. cbn.
  destruct (Ascii.eqb_spec a c) as [->|_]; [intros _; exact Ha | exact IH].
Qed.

Lemma span_id_prefix (s : string) : String.prefix (span_id s) s = true.
Proof.
  induction s as [|a s IH]; [reflexivity|]. cbn.
  destruct (id_char a); [|reflexivity]. cbn.
  destruct (ascii_dec a a); [exact IH | congruence].
Qed.

Lemma strip_prefix_contains (p s rest needle : string) :
  strip_prefix p s = Some rest -> contains needle rest = true ->
  contains needle s = true.
Proof.
  revert s. induction p as [|a p IH]; intros s H Hin; cbn in H.
  - now injection H as ->.
  - destruct s as [|b s]; [discriminate|].
    destruct (Ascii.eqb a b); [|discriminate].
    cbn [contains]. rewrite (IH _ H Hin). apply orb_true_r.
Qed.

Lemma capture_after_spec (p s id : string) :
  capture_after p s = Some id ->
  id <> "" /\ (forall c, has_char c id = true -> id_char c = true)
  /\ contains id s = true.
Proof.
  unfold capture_after. intros H.
  destruct (strip_prefix p s) as [rest|] eqn:Hp; [|discriminate].
  destruct (span_id rest) as [|c cs] eqn:Hspan; [discriminate|].
  injection H as <-. split; [discriminate|]. split.
  - intros a Ha. apply (span_id_chars rest). now rewrite Hspan.
  - apply (strip_prefix_contains p s rest _ Hp).
    destruct rest as [|r0 rest]; [discriminate|].
    cbn [contains]. rewrite <- Hspan, span_id_prefix. reflexivity.
Qed.

Lemma match_here_spec (s id : string) :
  match_here s = Some id ->
  id <> "" /\ (forall c, has_char c id = true -> id_char c = true)
  /\ contains id s = true.
Proof.
  unfold match_here. intros H.
  destruct (capture_after "youtube.com/watch?v=" s) eqn:H1.
  { injection H as ->. exact (capture_after_spec _ _ _ H1). }
  destruct (capture_after "youtu.be/" s) eqn:H2.
  { injection H as ->. exact (capture_after_spec _ _ _ H2). }
  exact (capture_after_spec _ _ _ H).
Qed.

Lemma extractVideoId_spec (url id : string) :
  extractVideoId url = Some id ->
  id <> "" /\ (forall c, has_char c id = true -> id_char c = true)
  /\ contains id url = true.
Proof.
  induction url as [|a url IH]; cbn [extractVideoId].
  - destruct (match_here "") eqn:Hm; [|discriminate].
    intros H. injection H as ->. exact (match_here_spec _ _ Hm).
  - destruct (match_here (String a url)) eqn:Hm.
    + intros H. injection H as ->. exact (match_here_spec _ _ Hm).
    + intros H. destruct (IH H) as (Hne & Hchars & Hin).
      repeat split; try assumption.
      cbn [contains]. rewrite Hin. apply orb_true_r.
Qed.

Lemma strip_prefix_app (p s : string) : strip_prefix p (p +:+ s) = Some s.
Proof.
  induction p as [|a p IH]; [reflexivity|].
  rewrite append_cons. cbn. now rewrite Ascii.eqb_refl.
Qed.

Lemma span_id_stop (id tail : string) :
  (forall c, has_char c id = true -> id_char c = true) ->
  (tail = "" \/ exists c r, tail = String c r /\ id_char c = false) ->
  span_id (id +:+ tail) = id.
Proof.
  intros Hchars Htail. induction id as [|a id IH].
  - destruct Htail as [->|(c & r & -> & Hc)]; [reflexivity|].
    change ("" +:+ String c r) with (String c r). cbn [span_id]. now rewrite Hc.
  - rewrite append_cons. cbn [span_id].
    rewrite (Hchars a) by (cbn; now rewrite Ascii.eqb_refl).
    f_equal. apply IH. intros c Hc. apply Hchars. cbn. rewrite Hc.
    apply orb_true_r.
Qed.

Lemma extract_step (c : ascii) (s : string) :
  c <> "y"%char -> extractVideoId (String c s) = extractVideoId s.
Proof.
  intros Hc. cbn [extractVideoId].
  assert (match_here (String c s) = None) as ->; [|reflexivity].
  unfold match_here, capture_after. cbn [strip_prefix].
  rewrite (proj2 (Ascii.eqb_neq _ _)) by congruence. reflexivity.
Qed.

Lemma extract_here (s id : string) :
  match_here s = Some id -> extractVideoId s = Some id.
Proof. intros H. destruct s; cbn [extractVideoId]; now rewrite H. Qed.

Lemma capture_id (p id tail : string) :
  id <> "" ->
  (forall c, has_char c id = true -> id_char c = true) ->
  (tail = "" \/ exists c r, tail = String c r /\ id_char c = false) ->
  capture_after p (p +:+ id +:+ tail) = Some id.
Proof.
  intros Hne Hchars Htail. unfold capture_after.
  rewrite strip_prefix_app, span_id_stop by assumption.
  destruct id; [congruence | reflexivity].
Qed.

End IndexFacts.

(** X15. What [extractVideoId] returns is never empty, holds none of the
    characters that end an id in a URL (ampersand, question mark, hash,
    line feed) and is a piece of the URL itself. *)
Theorem X15_extracted_id_well_formed (url id : string) :
  Index.extractVideoId url = Some id ->
  id <> ""
  /\ has_char "&" id = false /\ has_char "?" id = false
  /\ has_char "#" id = false /\ has_char (ascii_of_nat 10) id = false
  /\ contains id url = true.
Proof.
  intros H. destruct (extractVideoId_spec url id H) as (Hne & Hchars & Hin).
  assert (forall c, Index.id_char c = false -> has_char c id = false) as Hnot.
  { intros c Hc. destruct (has_char c id) eqn:Hh; [|reflexivity].
    rewrite (Hchars _ Hh) in Hc. discriminate. }
  repeat split; try assumption; apply Hnot; reflexivity.
Qed.

Lemma X15_extracted_id_well_formed_witness :
  has_char "&" "dQw4w9WgXcQ" = false
  /\ contains "dQw4w9WgXcQ" "https://youtu.be/dQw4w9WgXcQ?si=1" = true.
Proof.
  destruct (X15_extracted_id_well_formed "https://youtu.be/dQw4w9WgXcQ?si=1"
              "dQw4w9WgXcQ" eq_refl) as (_ & Hamp & _ & _ & _ & Hin).
  split; assumption.
Defined.

(** X16. An id put into any of the three URL forms comes back: for a
    non-empty id without ampersand, question mark, hash and line feed,
    followed by nothing or by one of those characters,
    [extractVideoId] of the watch, short and embed URL returns the id. *)
Theorem X16_extractVideoId_roundtrip (id tail : string) :
  id <> "" ->
  (forall c, has_char c id = true -> Index.id_char c = true) ->
  (tail = "" \/ exists c r, tail = String c r /\ Index.id_char c = false) ->
  Index.extractVideoId ("https://www.youtube.com/watch?v=" +:+ id +:+ tail) = Some id
  /\ Index.extractVideoId ("https://youtu.be/" +:+ id +:+ tail) = Some id
  /\ Index.extractVideoId ("https://www.youtube.com/embed/" +:+ id +:+ tail) = Some id.
Proof.
  intros Hne Hchars Htail.
  pose proof (fun p => capture_id p id tail Hne Hchars Htail) as Hcap.
  repeat split.
  - change ("https://www.youtube.com/watch?v=" +:+ id +:+ tail)
      with ("https://www." +:+ "youtube.com/watch?v=" +:+ id +:+ tail).
    repeat (rewrite append_cons, extract_step by discriminate).
    apply extract_here. unfold Index.match_here.
    change ("" +:+ "youtube.com/watch?v=" +:+ id +:+ tail)
      with ("youtube.com/watch?v=" +:+ id +:+ tail).
    now rewrite Hcap.
  - change ("https://youtu.be/" +:+ id +:+ tail)
      with ("https://" +:+ "youtu.be/" +:+ id +:+ tail).
    repeat (rewrite append_cons, extract_step by discriminate).
    apply extract_here. unfold Index.match_here.
    change ("" +:+ "youtu.be/" +:+ id +:+ tail)
      with ("youtu.be/" +:+ id +:+ tail).
    rewrite (Hcap "youtu.be/").
    assert (Index.capture_after "youtube.com/watch?v="
              ("youtu.be/" +:+ id +:+ tail) = None) as ->; [|reflexivity].
    unfold Index.capture_after. rewrite !append_cons. reflexivity.
  - change ("https://www.youtube.com/embed/" +:+ id +:+ tail)
      with ("https://www." +:+ "youtube.com/embed/" +:+ id +:+ tail).
    repeat (rewrite append_cons, extract_step by discriminate).
    apply extract_here. unfold Index.match_here.
    change ("" +:+ "youtube.com/embed/" +:+ id +:+ tail)
      with ("youtube.com/embed/" +:+ id +:+ tail).
    rewrite (Hcap "youtube.com/embed/").
    assert (Index.capture_after "youtube.com/watch?v="
              ("youtube.com/embed/" +:+ id +:+ tail) = None) as ->.
    { unfold Index.capture_after. rewrite !append_cons. reflexivity. }
    assert (Index.capture_after "youtu.be/"
              ("youtube.com/embed/" +:+ id +:+ tail) = None) as ->; [|reflexivity].
    unfold Index.capture_after. rewrite !append_cons. reflexivity.
Qed.

Lemma X16_extractVideoId_roundtrip_witness :
  Index.extractVideoId
    ("https://www.youtube.com/watch?v=" +:+ "dQw4w9WgXcQ" +:+ "&t=10")
  = Some "dQw4w9WgXcQ".
Proof.
  apply (X16_extractVideoId_roundtrip "dQw4w9WgXcQ" "&t=10").
  - discriminate.
  - intros c Hc. destruct (Index.id_char c) eqn:Hid; [reflexivity|].
    unfold Index.id_char in Hid. apply negb_false_iff in Hid.
    repeat (apply orb_prop in Hid as [Hid|Hid]);
      apply Ascii.eqb_eq in Hid; subst c; vm_compute in Hc; discriminate Hc.
  - right. exists "&"%char, "t=10". split; reflexivity.
Defined.

(** X17. On the settings page, the model that [handleProviderChange]
    selects for a provider is the first of the options [getModelOptions]
    offers for that provider, whatever the provider is called. *)
Theorem X17_default_model_is_offered (provider : string) :
  exists others,
    AdminSettings.getModelOptions provider
    = AdminSettings.defaultModel provider :: others.
Proof.
  unfold AdminSettings.getModelOptions, AdminSettings.defaultModel.
  destruct (String.eqb provider "gemini"); eauto.
Qed.



(** X19. A summarize request that fails with no message from the backend
    (a response that is not ok without a message, or something thrown that
    is no Error) and was not aborted: the start page toasts the fixed text
    of the client and hands [setProcessState] the state its handler closed
    over, that of the render that submitted and not the one the dialog has
    reached since, with the error filed at that state's step under the
    general advice to try again later; the fixed texts hold none of the
    keywords by which errors are assigned to a step or to an advice.  For
    a submission from the initial state the error is so filed at
    'validating'. *)
Theorem X19_unexplained_failure_step {number : Type}
    (outcome : Api.FetchOutcome ApiRequests.VideoData) (fixed : string)
    (processState : Index.ProcessState number) :
  ((outcome = Api.NotOk None \/ outcome = Api.NotOk (Some ""))
   /\ fixed = "영상 처리 중 오류가 발생했습니다")
  \/ (outcome = Api.Rejected Api.NotAnError
      /\ fixed = "서버와의 연결에 실패했습니다. 백엔드가 실행 중인지 확인해주세요.") ->
  let filed (closed_over : Index.ProcessState number) :=
    {| Index.currentStep := Index.currentStep closed_over;
       Index.progress := Index.progress closed_over;
       Index.error :=
         Some {| Index.step := Index.currentStep closed_over;
                 Index.code := "processing_error";
                 Index.message := fixed;
                 Index.suggestion := Some "잠시 후 다시 시도해주세요" |} |} in
  ApiRequests.summarizeVideo outcome = raise (Api.JsError fixed)
  /\ Index.handleSubmit_catch false processState (Api.JsError fixed)
     = Some (filed processState, fixed)
  /\ (forall zero : number,
        exists shown : Index.ProcessState number,
          Index.handleSubmit_catch false (Index.initialProcessState zero)
            (Api.JsError fixed)
          = Some (shown, fixed)
          /\ Index.currentStep shown = Index.validating
          /\ Index.progress shown = zero).
Proof.
  intros H filed.
  assert (Index.getErrorStep fixed = (fun currentStep => currentStep)
          /\ Index.getSuggestion fixed = "잠시 후 다시 시도해주세요"
          /\ ApiRequests.summarizeVideo outcome = raise (Api.JsError fixed))
    as (Hstep & Hsuggestion & Hthrown).
  { destruct H as [[[-> | ->] ->] | [-> ->]];
      (split; [|split; [|reflexivity]]);
      unfold Index.getErrorStep, Index.getSuggestion;
      repeat match goal with
      | |- context [contains ?k ?m] =>
          let b := eval vm_compute in (contains k m) in
          replace (contains k m) with b by (vm_compute; reflexivity)
      end; reflexivity. }
  assert (forall closed_over : Index.ProcessState number,
             Index.handleSubmit_catch false closed_over (Api.JsError fixed)
             = Some (filed closed_over, fixed)) as Hcatch.
  { intros closed_over. unfold Index.handleSubmit_catch.
    now rewrite Hstep, Hsuggestion. }
  split; [exact Hthrown|]. split; [apply Hcatch|].
  intros zero. eexists. split; [apply Hcatch|]. split; reflexivity.
Qed.

Lemma X19_unexplained_failure_step_witness :
  ApiRequests.summarizeVideo (Api.NotOk None)
  = raise (Api.JsError "영상 처리 중 오류가 발생했습니다")
  /\ exists shown : Index.ProcessState N,
       Index.handleSubmit_catch false (Index.initialProcessState 0%N)
         (Api.JsError "영상 처리 중 오류가 발생했습니다")
       = Some (shown, "영상 처리 중 오류가 발생했습니다")
       /\ Index.currentStep shown = Index.validating.
Proof.
  destruct (X19_unexplained_failure_step (number := N) (Api.NotOk None)
              "영상 처리 중 오류가 발생했습니다" (Index.initialProcessState 0%N))
    as (Hthrown & _ & Hinitial).
  - left. split; [left|]; reflexivity.
  - split; [exact Hthrown|].
    destruct (Hinitial 0%N) as (shown & Hshown & Hstep & _).
    exists shown. split; assumption.
Defined.

(** * The lines of the transcript panel *)

Section LineFacts.
Import TranscriptPanel.

Lemma split_pieces_cons (c : ascii) (s : string) :
  split_pieces (String c s)
  = match s with
    | "" => (String c "", [])
    | String c2 rest2 =>
        if Ascii.eqb c (ascii_of_nat 10) && Ascii.eqb c2 (ascii_of_nat 10)
        then ("", let '(p, ps) := split_pieces rest2 in p :: ps)
        else let '(p, ps) := split_pieces s in (String c p, ps)
    end.
Proof. destruct s; reflexivity. Qed.

Lemma contains_tail (needle : string) (c : ascii) (s : string) :
  contains needle (String c s) = false ->
  String.prefix needle (String c s) = false /\ contains needle s = false.
Proof. cbn [contains]. intros H. now apply orb_false_elim in H. Qed.

Lemma prefix_nlnl (c c2 : ascii) (s : string) :
  String.prefix (nl +:+ nl) (String c (String c2 s))
  = Ascii.eqb c (ascii_of_nat 10) && Ascii.eqb c2 (ascii_of_nat 10).
Proof.
  change (nl +:+ nl) with (String (ascii_of_nat 10) (String (ascii_of_nat 10) "")).
  cbn [String.prefix].
  destruct (ascii_dec (ascii_of_nat 10) c) as [<-|Hc].
  - rewrite Ascii.eqb_refl.
    destruct (ascii_dec (ascii_of_nat 10) c2) as [<-|Hc2].
    + rewrite Ascii.eqb_refl. now destruct s.
    + symmetry. apply Ascii.eqb_neq. congruence.
  - replace (Ascii.eqb c (ascii_of_nat 10)) with false; [reflexivity|].
    symmetry. apply Ascii.eqb_neq. congruence.
Qed.

(** A text without a blank line is one piece. *)
Lemma split_pieces_whole (l : string) :
  contains (nl +:+ nl) l = false -> split_pieces l = (l, []).
Proof.
  induction l as [|c l IH]; intros H; [reflexivity|].
  apply contains_tail in H as [Hp Hl]. rewrite split_pieces_cons.
  destruct l as [|c2 l]; [reflexivity|].
  rewrite prefix_nlnl in Hp. rewrite Hp. now rewrite (IH Hl).
Qed.

(** The first blank line after a text that has none and does not end in a
    line feed ends the first piece. *)
Lemma split_pieces_first (l rest : string) :
  contains (nl +:+ nl) l = false ->
  (forall p, l <> p +:+ nl) ->
  split_pieces (l +:+ (nl +:+ nl) +:+ rest) = (l, split rest).
Proof.
  induction l as [|c l IH]; intros H Hend.
  - reflexivity.
  - apply contains_tail in H as [Hp Hl]. rewrite append_cons, split_pieces_cons.
    destruct l as [|c2 l].
    + change ("" +:+ (nl +:+ nl) +:+ rest)
        with (String (ascii_of_nat 10) (String (ascii_of_nat 10) rest)).
      destruct (Ascii.eqb_spec c (ascii_of_nat 10)) as [->|Hc].
      * now destruct (Hend "").
      * cbn [andb]. now rewrite split_pieces_cons, !Ascii.eqb_refl.
    + rewrite append_cons. rewrite prefix_nlnl in Hp. rewrite Hp.
      rewrite <- append_cons. rewrite IH; [reflexivity | assumption |].
      intros p Hpeq. apply (Hend (String c p)). rewrite append_cons. now f_equal.
Qed.

Lemma concat_cons2 (sep x y : string) (l : list string) :
  String.concat sep (x :: y :: l) = x +:+ sep +:+ String.concat sep (y :: l).
Proof. reflexivity. Qed.

Lemma split_concat (l : string) (ls : list string) :
  Forall (fun l => contains (nl +:+ nl) l = false /\ forall p, l <> p +:+ nl)
         (l :: ls) ->
  split (String.concat (nl +:+ nl) (l :: ls)) = l :: ls.
Proof.
  revert l. induction ls as [|y ls IH]; intros l H.
  - apply Forall_cons_1 in H as [[Hl _] _]. unfold split.
    cbn [String.concat]. now rewrite split_pieces_whole.
  - apply Forall_cons_1 in H as [[Hl Hend] H]. unfold split.
    rewrite concat_cons2, split_pieces_first by assumption.
    now rewrite IH.
Qed.

Lemma filter_all {A : Type} (f : A -> bool) (l : list A) :
  Forall (fun x => f x = true) l -> List.filter f l = l.
Proof.
  induction 1 as [|x l Hx _ IH]; [reflexivity|].
  cbn [List.filter]. now rewrite Hx, IH.
Qed.

Lemma ends_with_nl (p : string) : PromptShape.ends_with nl (p +:+ nl) = true.
Proof.
  induction p as [|c p IH]; [reflexivity|].
  rewrite append_cons. cbn [PromptShape.ends_with]. rewrite IH. apply orb_true_r.
Qed.

End LineFacts.

(** X20. The lines of the transcript panel are the paragraphs of the
    transcript: for paragraphs that are not blank, hold no blank line and do
    not end in a line feed, the transcript that joins them with blank lines
    is shown as exactly these paragraphs, in their order; the empty
    transcript has no line. *)
Theorem X20_lines_of_paragraphs (paragraphs : list string) :
  Forall (fun l => ChatPanel.blank l = false
                   /\ contains (nl +:+ nl) l = false
                   /\ PromptShape.ends_with nl l = false) paragraphs ->
  TranscriptPanel.lines_of (String.concat (nl +:+ nl) paragraphs) = paragraphs.
Proof.
  intros H. destruct paragraphs as [|l ls]; [reflexivity|].
  unfold TranscriptPanel.lines_of. rewrite split_concat.
  - apply filter_all. eapply Forall_impl; [exact H|].
    intros x [Hx _]. cbv beta. now rewrite Hx.
  - eapply Forall_impl; [exact H|]. intros x (_ & Hx & Hend).
    split; [assumption|]. intros p ->. now rewrite ends_with_nl in Hend.
Qed.

Lemma X20_lines_of_paragraphs_witness :
  TranscriptPanel.lines_of
    (String.concat (nl +:+ nl) ["0:00 hello"; "0:05 " +:+ nl +:+ "world"])
  = ["0:00 hello"; "0:05 " +:+ nl +:+ "world"].
Proof.
  apply X20_lines_of_paragraphs. repeat constructor.
Defined.
